(** * Clip preprocessing transforms and their bounding boxes

    A shallow embedding of [datasets/preprocessing_transforms.py]: the
    frame adapter of [PreprocTransform], the transform units
    ([ResizeClip], [CropClip], [RandomCropClip], [CenterCropClip],
    [RandomFlipClip], [RandomRotateClip], [ToTensorClip],
    [ApplyToClip]) and the two geometry primitives [resize_bbox] and
    [crop_bbox].

    Conventions of the embedding.
    - A Python call either returns or raises: [result A] with the
      exception classes the module can raise.
    - PIL images are terms over the PIL operations the module calls;
      their pixels stay abstract, their [size] is PIL's (width, height).
    - A box is a row (a0, a1, a2, a3) of a numpy array; coordinates are
      integers.  A box array of shape (F, S, 4) is a list of F rows of S
      boxes.
    - Python floats are binary64 numbers.  [resize_bbox] computes with
      them as the code does, every operation rounded to nearest, ties
      to even.  In [_calculate_center] the halves of integers and their
      sums are exact and are written as rationals.  In [_rotate_bbox]
      numpy's sqrt, arctan2, cos and sin are read as the real
      functions: the development evaluates it only where every rounding
      error is far from an integer boundary.
    - [np.random] is a state: a sequence of raw draws and a cursor. *)

From Stdlib Require Import String ZArith QArith Reals Lra Bool Lia List SpecFloat.
Import ListNotations.
Close Scope R_scope.
Close Scope Q_scope.
Open Scope Z_scope.

(** ** Exceptions and results *)

(** The ways a call of the module stops without returning.
    [PdbBreakpoint] is the stop at [pdb.set_trace()]. *)
Inductive exn : Set :=
| IndexError | NameError | TypeError | ValueError | ZeroDivisionError
| AssertionError | UnboundLocalError | AttributeError | OverflowError
| PdbBreakpoint.

Inductive result (A : Type) : Type :=
| Ok (a : A)
| Err (e : exn).
Arguments Ok {A} a.
Arguments Err {A} e.

Definition bind {A B : Type} (c : result A) (k : A -> result B) : result B :=
  match c with
  | Ok a => k a
  | Err e => Err e
  end.

Declare Scope py_scope.
Delimit Scope py_scope with py.
Notation "x <- c ;; k" := (bind c (fun x => k))
  (at level 61, c at next level, right associativity) : py_scope.
Notation "' p <- c ;; k" := (bind c (fun x => match x with p => k end))
  (at level 61, p pattern, c at next level, right associativity) : py_scope.
Open Scope py_scope.

(** [for x in l: s = body(x, s)], stopping at the first exception. *)
Fixpoint for_each {A S : Type} (l : list A) (body : A -> S -> result S) (s : S)
  : result S :=
  match l with
  | [] => Ok s
  | x :: l' => s' <- body x s ;; for_each l' body s'
  end.

(** [[f(x) for x in l]] *)
Fixpoint map_result {A B : Type} (f : A -> result B) (l : list A)
  : result (list B) :=
  match l with
  | [] => Ok []
  | x :: l' => y <- f x ;; ys <- map_result f l' ;; Ok (y :: ys)
  end.

(** Calls that also read and write a state [S] (the generator of
    [np.random], the fields of [self]); the state written before an
    exception stays written. *)
Definition M (S A : Type) : Type := S -> result A * S.

Definition ret_M {S A : Type} (a : A) : M S A := fun s => (Ok a, s).

Definition raise_M {S A : Type} (e : exn) : M S A := fun s => (Err e, s).

Definition lift {S A : Type} (c : result A) : M S A := fun s => (c, s).

Definition bind_M {S A B : Type} (c : M S A) (k : A -> M S B) : M S B :=
  fun s =>
    match c s with
    | (Ok a, s') => k a s'
    | (Err e, s') => (Err e, s')
    end.

Notation "x <~ c ;; k" := (bind_M c (fun x => k))
  (at level 61, c at next level, right associativity) : py_scope.

(** [range(n)] *)
Definition range (n : nat) : list nat := seq 0 n.

(** [l[i]] for an index produced by [range]. *)
Definition getitem {A : Type} (l : list A) (i : nat) : result A :=
  match nth_error l i with
  | Some x => Ok x
  | None => Err IndexError
  end.

(** [l[i] = x] on an array row; past the end numpy raises. *)
Fixpoint setitem {A : Type} (l : list A) (i : nat) (x : A) : result (list A) :=
  match l, i with
  | [], _ => Err IndexError
  | _ :: l', O => Ok (x :: l')
  | y :: l', S i' => r <- setitem l' i' x ;; Ok (y :: r)
  end.

(** ** Data model *)

(** numpy arrays, by shape and element type. *)
Inductive dtype : Set := uint8 | int64 | float32 | float64.

Record ndarray : Set := mk_ndarray { shape : list Z; elt : dtype }.

Inductive mode : Set := Mode_L | Mode_RGB | Mode_F.

Inductive transpose_method : Set := FLIP_LEFT_RIGHT | FLIP_TOP_BOTTOM.

(** PIL images: a decoded image of a mode and extent, and the images the
    module builds from it. *)
Inductive image : Set :=
| Decoded (m : mode) (width height : Z)
| FromArray (a : ndarray) (m : option mode)
| Resized (im : image) (size : Z * Z)
| Cropped (im : image) (box : Z * Z * Z * Z)
| Transposed (im : image) (method : transpose_method)
| Rotated (im : image) (angle : Z).

Module Image.

(** [im.size]: (width, height).  No extent of an image is negative. *)
Fixpoint size (im : image) : Z * Z :=
  match im with
  | Decoded _ w h => (w, h)
  | FromArray a _ => (nth 1 (shape a) 0, nth 0 (shape a) 0)
  | Resized _ (w, h) => (Z.max 0 w, Z.max 0 h)
  | Cropped _ (x0, y0, x1, y1) => (Z.max 0 (x1 - x0), Z.max 0 (y1 - y0))
  | Transposed im' _ => size im'
  | Rotated im' _ => size im'
  end.

(** [im.mode] *)
Fixpoint mode_of (im : image) : mode :=
  match im with
  | Decoded m _ _ => m
  | FromArray a (Some m) => m
  | FromArray a None =>
      match elt a, shape a with
      | uint8, [_; _; _] => Mode_RGB
      | uint8, _ => Mode_L
      | _, _ => Mode_F
      end
  | Resized im' _ => mode_of im'
  | Cropped im' _ => mode_of im'
  | Transposed im' _ => mode_of im'
  | Rotated im' _ => mode_of im'
  end.

(** [im.resize(size)].  For the size the image already has PIL returns
    a copy; any other size must be positive on both axes, or PIL raises
    ValueError. *)
Definition resize (im : image) (sz : Z * Z) : result image :=
  let '(w, h) := sz in
  let '(w0, h0) := size im in
  if ((w0 =? w) && (h0 =? h)) || ((0 <? w) && (0 <? h)) then Ok (Resized im sz)
  else Err ValueError.

(** [im.crop(box)] with box = (left, upper, right, lower).  A box may
    reach outside the image; a box whose right is less than its left,
    or its lower less than its upper, PIL refuses with ValueError
    (releases before that check returned an image without pixels). *)
Definition crop (im : image) (bx : Z * Z * Z * Z) : result image :=
  let '(x0, y0, x1, y1) := bx in
  if (x1 <? x0) || (y1 <? y0) then Err ValueError else Ok (Cropped im bx).

End Image.

(** What an element of a clip can be: a PIL image, a numpy array, or an
    object of another class (named by its class). *)
Inductive frame : Set :=
| PILImage (im : image)
| NdArray (a : ndarray)
| PyObject (cls : string).

(** What is passed as [clip]: a Python list, one numpy array holding all
    frames, or an object of another class. *)
Inductive pyclip : Set :=
| ClipList (frames : list frame)
| ClipArray (a : ndarray)
| ClipOther (cls : string).

(** The elements [for frame in clip] visits, [clip[0]] first.  Indexing
    an array of two or more dimensions gives arrays, of one dimension
    numpy scalars. *)
Definition clip_items (clip : pyclip) : list frame :=
  match clip with
  | ClipList frames => frames
  | ClipArray a =>
      match shape a with
      | [] => []
      | [n] => repeat (PyObject "numpy.generic") (Z.to_nat n)
      | n :: sh => repeat (NdArray (mk_ndarray sh (elt a))) (Z.to_nat n)
      end
  | ClipOther _ => []
  end.

(** [len(clip)] *)
Definition clip_len (clip : pyclip) : nat := length (clip_items clip).

(** A box row and a box array.  The rows of a numpy array of shape
    (F, S, 4) and the Python list of rows that [RandomFlipClip] returns
    are both written as a list of rows; the units that index
    [bbox[frame_ind, class_ind]] are stated for the array. *)
Definition box : Set := Z * Z * Z * Z.
Definition boxset : Set := list (list box).

(** [bbox != []].  The default [[]] compares equal; for a non-empty
    box array the elementwise comparison with [[]] cannot be broadcast
    and numpy, as of the module's time, answers the scalar True. *)
Definition bbox_given (bbox : boxset) : bool :=
  match bbox with
  | [] => false
  | _ :: _ => true
  end.

(** [np.zeros(row.shape)] *)
Definition zeros_like (row : list box) : list box :=
  repeat (0, 0, 0, 0) (length row).

(** What a unit returns: [out_clip] alone, or [(out_clip, out_bbox)]. *)
Inductive ret : Set :=
| ClipOnly (clip : pyclip)
| ClipAndBoxes (clip : pyclip) (bbox : boxset).

Definition ret_clip (r : ret) : pyclip :=
  match r with
  | ClipOnly c => c
  | ClipAndBoxes c _ => c
  end.

Definition ret_bbox (r : ret) : boxset :=
  match r with
  | ClipOnly _ => []
  | ClipAndBoxes _ b => b
  end.

(** Image methods called on a clip element.  An element that is not a
    PIL image has no such image method: AttributeError. *)
Definition as_image (f : frame) : result image :=
  match f with
  | PILImage im => Ok im
  | _ => Err AttributeError
  end.

(** ** Python numbers *)

(** [int(q)] of an exact value: truncation toward zero. *)
Definition py_int (q : Q) : Z := Z.quot (Qnum q) (Zpos (Qden q)).

(** A Python float: an IEEE 754 binary64 number. *)
Definition pyfloat : Set := spec_float.

Module Float64.

Definition prec : Z := 53.
Definition emax : Z := 1024.

(** [float(n)], and the conversion of an int operand of a float
    operation: the nearest float, ties to even; an int beyond the
    largest float raises OverflowError. *)
Definition of_int (n : Z) : result pyfloat :=
  match binary_normalize prec emax n 0 false with
  | S754_infinity _ => Err OverflowError
  | x => Ok x
  end.

(** [a / b] for an int [a] and a float [b] *)
Definition truediv (a : Z) (b : pyfloat) : result pyfloat :=
  x <- of_int a ;;
  match b with
  | S754_zero _ => Err ZeroDivisionError
  | _ => Ok (SFdiv prec emax x b)
  end.

(** [a * b] for an int [a] and a float [b] *)
Definition mul (a : Z) (b : pyfloat) : result pyfloat :=
  x <- of_int a ;; Ok (SFmul prec emax x b).

(** [int(x)]: truncation toward zero; an infinity raises OverflowError
    and a NaN ValueError. *)
Definition to_int (x : pyfloat) : result Z :=
  match x with
  | S754_zero _ => Ok 0
  | S754_infinity _ => Err OverflowError
  | S754_nan => Err ValueError
  | S754_finite s m e =>
      let v :=
        match e with
        | Zneg p => Z.shiftr (Zpos m) (Zpos p)
        | _ => Z.shiftl (Zpos m) e
        end in
      Ok (if s then - v else v)
  end.

End Float64.

(** ** Geometry primitives *)

(** [resize_bbox(xmin, xmax, ymin, ymax, img_shape, resize_shape)] *)
Definition resize_bbox (xmin xmax ymin ymax : Z) (img_shape resize_shape : Z * Z)
  : result box :=
  let img_h := fst img_shape in
  let img_w := snd img_shape in
  let res_h := fst resize_shape in
  let res_w := snd resize_shape in
  frac_h <- (d <- Float64.of_int img_h ;; Float64.truediv res_h d) ;;
  frac_w <- (d <- Float64.of_int img_w ;; Float64.truediv res_w d) ;;
  xmin_new <- (x <- Float64.mul xmin frac_w ;; Float64.to_int x) ;;
  xmax_new <- (x <- Float64.mul xmax frac_w ;; Float64.to_int x) ;;
  ymin_new <- (y <- Float64.mul ymin frac_h ;; Float64.to_int y) ;;
  ymax_new <- (y <- Float64.mul ymax frac_h ;; Float64.to_int y) ;;
  Ok (xmin_new, xmax_new, ymin_new, ymax_new).

(** [crop_bbox(xmin, xmax, ymin, ymax, crop_xmin, crop_xmax, crop_ymin, crop_ymax)] *)
Definition crop_bbox (xmin xmax ymin ymax crop_xmin crop_xmax crop_ymin crop_ymax : Z)
  : box :=
  if (xmin >=? crop_xmax) || (xmax <=? crop_xmin)
     || (ymin >=? crop_ymax) || (ymax <=? crop_ymin)
  then (-1, -1, -1, -1)
  else
    let ymax_new := if ymax >? crop_ymax then crop_ymax else ymax in
    let xmax_new := if xmax >? crop_xmax then crop_xmax else xmax in
    let ymin_new := if ymin <? crop_ymin then crop_ymin else ymin in
    let xmin_new := if xmin <? crop_xmin then crop_xmin else xmin in
    (xmin_new, xmax_new, ymin_new, ymax_new).

(** ** numpy and PIL conversions *)

(** [np.array(im)] of a PIL image: rows first, the bands last. *)
Definition array_of_image (im : image) : ndarray :=
  let '(w, h) := Image.size im in
  match Image.mode_of im with
  | Mode_L => mk_ndarray [h; w] uint8
  | Mode_RGB => mk_ndarray [h; w; 3] uint8
  | Mode_F => mk_ndarray [h; w] float32
  end.

(** [Image.fromarray(frame, mode)] *)
Definition fromarray (f : frame) (m : option mode) : result image :=
  match f with
  | NdArray a => Ok (FromArray a m)
  | PILImage im => Ok (FromArray (array_of_image im) m)
  | PyObject _ => Err AttributeError
  end.

(** The value of [frame.size]: a tuple for an image, the number of
    elements for an array. *)
Inductive pyvalue : Set :=
| PyInt (n : Z)
| PyTuple (items : list Z).

Definition size_attr (f : frame) : result pyvalue :=
  match f with
  | PILImage im => let '(w, h) := Image.size im in Ok (PyTuple [w; h])
  | NdArray a => Ok (PyInt (fold_right Z.mul 1 (shape a)))
  | PyObject _ => Err AttributeError
  end.

(** [len(v)] *)
Definition py_len (v : pyvalue) : result nat :=
  match v with
  | PyInt _ => Err TypeError
  | PyTuple items => Ok (length items)
  end.

(** [type(f) == self.numpy_type] *)
Definition is_ndarray (f : frame) : bool :=
  match f with
  | NdArray _ => true
  | _ => false
  end.

(** [for frame in clip]: an object that is neither a list nor an array
    of one dimension or more is not iterated.  (An object of another
    class is taken to be one Python cannot iterate, such as None or a
    number; a tuple is not told apart from it.) *)
Definition iterate (clip : pyclip) : result (list frame) :=
  match clip with
  | ClipList frames => Ok frames
  | ClipArray a =>
      match shape a with
      | [] => Err TypeError
      | _ => Ok (clip_items clip)
      end
  | ClipOther _ => Err TypeError
  end.

(** ** The frame adapter *)

Module PreprocTransform.

(** [_format_clip(self, clip)].  What follows [pdb.set_trace()] is up to
    the person at the prompt; the call is taken to stop there. *)
Definition _format_clip (clip : pyclip) : result pyclip :=
  match clip with
  | ClipOther _ => Err AssertionError
  | _ =>
      first <- getitem (clip_items clip) 0 ;;
      if is_ndarray first then
        output_clip <-
          for_each (clip_items clip)
            (fun frame output_clip =>
               sz <- size_attr frame ;;
               n <- py_len sz ;;
               if Nat.eqb n 3 then
                 im <- fromarray frame (Some Mode_F) ;;
                 Ok (output_clip ++ [PILImage im])
               else Err PdbBreakpoint)
            [] ;;
        Ok (ClipList output_clip)
      else Ok clip
  end.

(** [np.array(frame)].  Of an object that is neither an image nor an
    array numpy makes an object array, which [torch.from_numpy]
    refuses: TypeError. *)
Definition np_array (f : frame) : result ndarray :=
  match f with
  | PILImage im => Ok (array_of_image im)
  | NdArray a => Ok a
  | PyObject _ => Err TypeError
  end.

Definition shape_eqb (s1 s2 : list Z) : bool :=
  (Nat.eqb (length s1) (length s2))
  && forallb (fun xy => fst xy =? snd xy) (combine s1 s2).

(** The element type numpy gives to a value made of both. *)
Definition promote (a b : dtype) : dtype :=
  match a, b with
  | uint8, d | d, uint8 => d
  | int64, int64 => int64
  | float32, float32 => float32
  | _, _ => float64
  end.

(** [np.array(arrays)] of a list of arrays: one more axis in front, the
    element types promoted.  Arrays of different shapes do not stack
    into a numeric array: ValueError. *)
Definition np_stack (arrays : list ndarray) : result ndarray :=
  match arrays with
  | [] => Ok (mk_ndarray [0] float64)
  | a :: rest =>
      if forallb (fun b => shape_eqb (shape a) (shape b)) rest then
        Ok (mk_ndarray (Z.of_nat (length arrays) :: shape a)
              (fold_left promote (map elt rest) (elt a)))
      else Err ValueError
  end.

(** [_format_clip_numpy(self, clip)] *)
Definition _format_clip_numpy (clip : pyclip) : result ndarray :=
  match clip with
  | ClipList frames =>
      first <- getitem frames 0 ;;
      output_clip <-
        (if is_ndarray first then map_result np_array frames
         else
           for_each frames
             (fun frame output_clip =>
                a <- np_array frame ;; Ok (output_clip ++ [a]))
             []) ;;
      np_stack output_clip
  | _ => Err AssertionError
  end.

End PreprocTransform.

(** ** Transform units *)

Module ResizeClip.

Record t : Set := mk { size_h : Z; size_w : Z }.

Definition __init__ (size_h size_w : Z) : t := mk size_h size_w.

(** [__call__(self, clip, bbox=[])] *)
Definition __call__ (self : t) (clip : pyclip) (bbox : boxset) : result ret :=
  clip <- PreprocTransform._format_clip clip ;;
  ' (out_clip, out_bbox) <-
    for_each (range (clip_len clip))
      (fun frame_ind '(out_clip, out_bbox) =>
         frame <- getitem (clip_items clip) frame_ind ;;
         im <- as_image frame ;;
         proc_frame <- Image.resize im (size_w self, size_h self) ;;
         let out_clip := out_clip ++ [PILImage proc_frame] in
         if bbox_given bbox then
           row <- getitem bbox frame_ind ;;
           temp_bbox <-
             for_each (range (length bbox))
               (fun class_ind temp_bbox =>
                  row <- getitem bbox frame_ind ;;
                  ' (xmin, ymin, xmax, ymax) <- getitem row class_ind ;;
                  proc_bbox <-
                    resize_bbox xmin ymin xmax ymax (Image.size im)
                      (size_w self, size_h self) ;;
                  setitem temp_bbox class_ind proc_bbox)
               (zeros_like row) ;;
           Ok (out_clip, out_bbox ++ [temp_bbox])
         else Ok (out_clip, out_bbox))
      ([], []) ;;
  if bbox_given bbox then Ok (ClipAndBoxes (ClipList out_clip) out_bbox)
  else Ok (ClipOnly (ClipList out_clip)).

End ResizeClip.

Module CropClip.

Record t : Set :=
  mk { bbox_xmin : Z; bbox_xmax : Z; bbox_ymin : Z; bbox_ymax : Z }.

Definition __init__ (xmin xmax ymin ymax : Z) : t := mk xmin xmax ymin ymax.

Definition _update_bbox (self : t) (xmin xmax ymin ymax : Z) : t :=
  mk xmin xmax ymin ymax.

(** [__call__(self, clip, bbox=[])] *)
Definition __call__ (self : t) (clip : pyclip) (bbox : boxset) : result ret :=
  clip <- PreprocTransform._format_clip clip ;;
  ' (out_clip, out_bbox) <-
    for_each (range (clip_len clip))
      (fun frame_ind '(out_clip, out_bbox) =>
         frame <- getitem (clip_items clip) frame_ind ;;
         im <- as_image frame ;;
         proc_frame <-
           Image.crop im
             (bbox_xmin self, bbox_ymin self, bbox_xmax self, bbox_ymax self) ;;
         let out_clip := out_clip ++ [PILImage proc_frame] in
         if bbox_given bbox then
           row <- getitem bbox frame_ind ;;
           temp_bbox <-
             for_each (range (length bbox))
               (fun class_ind temp_bbox =>
                  row <- getitem bbox frame_ind ;;
                  ' (xmin, ymin, xmax, ymax) <- getitem row class_ind ;;
                  let proc_bbox :=
                    crop_bbox xmin ymin xmax ymax (bbox_xmin self)
                      (bbox_xmax self) (bbox_ymin self) (bbox_ymax self) in
                  setitem temp_bbox class_ind proc_bbox)
               (zeros_like row) ;;
           Ok (out_clip, out_bbox ++ [temp_bbox])
         else Ok (out_clip, out_bbox))
      ([], []) ;;
  if bbox_given bbox then Ok (ClipAndBoxes (ClipList out_clip) out_bbox)
  else Ok (ClipOnly (ClipList out_clip)).

End CropClip.

(** ** [np.random] *)

Record np_random_state : Type := mk_state { draws : nat -> N; cursor : nat }.

Definition next_draw : M np_random_state N :=
  fun st => (Ok (draws st (cursor st)), mk_state (draws st) (S (cursor st))).

Module np_random.

(** [np.random.randint(low, high)]: an integer of [low, high). *)
Definition randint (low high : Z) : M np_random_state Z :=
  if high <=? low then raise_M ValueError
  else r <~ next_draw ;; ret_M (low + Z.of_N r mod (high - low)).

(** [np.random.random()]: a float of [0, 1). *)
Definition random : M np_random_state Q :=
  r <~ next_draw ;; ret_M (Qmake (Z.of_N r mod 2 ^ 53) (2 ^ 53)).

(** [np.random.choice(a)] *)
Definition choice {A : Type} (a : list A) : M np_random_state A :=
  match a with
  | [] => raise_M ValueError
  | x :: _ => r <~ next_draw ;; ret_M (nth (N.to_nat r mod length a) a x)
  end.

End np_random.

Module RandomCropClip.

Record t : Type :=
  mk { crop_w : Z; crop_h : Z; crop_transform : CropClip.t;
       xmin : option Z; xmax : option Z; ymin : option Z; ymax : option Z }.

Definition __init__ (crop_w crop_h : Z) : t :=
  mk crop_w crop_h (CropClip.__init__ 0 0 crop_w crop_h) None None None None.

(** The state of a call: the fields of [self] and the generator. *)
Definition state : Type := t * np_random_state.

Definition get_self : M state t := fun s => (Ok (fst s), s).

Definition put_self (self : t) : M state unit := fun s => (Ok tt, (self, snd s)).

Definition with_rng {A : Type} (c : M np_random_state A) : M state A :=
  fun s => let '(r, st) := c (snd s) in (r, (fst s, st)).

(** [self.xmin = v], and the like. *)
Definition set_xmin (v : Z) : M state unit :=
  self <~ get_self ;;
  put_self (mk (crop_w self) (crop_h self) (crop_transform self)
              (Some v) (xmax self) (ymin self) (ymax self)).

Definition set_xmax (v : Z) : M state unit :=
  self <~ get_self ;;
  put_self (mk (crop_w self) (crop_h self) (crop_transform self)
              (xmin self) (Some v) (ymin self) (ymax self)).

Definition set_ymin (v : Z) : M state unit :=
  self <~ get_self ;;
  put_self (mk (crop_w self) (crop_h self) (crop_transform self)
              (xmin self) (xmax self) (Some v) (ymax self)).

Definition set_ymax (v : Z) : M state unit :=
  self <~ get_self ;;
  put_self (mk (crop_w self) (crop_h self) (crop_transform self)
              (xmin self) (xmax self) (ymin self) (Some v)).

Definition set_crop_transform (c : CropClip.t) : M state unit :=
  self <~ get_self ;;
  put_self (mk (crop_w self) (crop_h self) c
              (xmin self) (xmax self) (ymin self) (ymax self)).

(** A field holding a number; [None] is no number. *)
Definition field (v : option Z) : result Z :=
  match v with
  | Some z => Ok z
  | None => Err TypeError
  end.

(** [_update_random_sample(self, frame_w, frame_h)] *)
Definition _update_random_sample (frame_w frame_h : Z) : M state unit :=
  self <~ get_self ;;
  x <~ with_rng (np_random.randint 0 (frame_w - crop_w self)) ;;
  _ <~ set_xmin x ;;
  self <~ get_self ;;
  x0 <~ lift (field (xmin self)) ;;
  _ <~ set_xmax (x0 + crop_w self) ;;
  self <~ get_self ;;
  y <~ with_rng (np_random.randint 0 (frame_h - crop_h self)) ;;
  _ <~ set_ymin y ;;
  self <~ get_self ;;
  y0 <~ lift (field (ymin self)) ;;
  set_ymax (y0 + crop_h self).


(** [__call__(self, clip, bbox=[])] *)
Definition __call__ (clip : pyclip) (bbox : boxset) : M state ret :=
  clip <~ lift (PreprocTransform._format_clip clip) ;;
  frame_shape <~ lift (first <- getitem (clip_items clip) 0 ;;
                       im <- as_image first ;; Ok (Image.size im)) ;;
  _ <~ _update_random_sample (fst frame_shape) (snd frame_shape) ;;
  self <~ get_self ;;
  x0 <~ lift (field (xmin self)) ;;
  x1 <~ lift (field (xmax self)) ;;
  y0 <~ lift (field (ymin self)) ;;
  y1 <~ lift (field (ymax self)) ;;
  _ <~ set_crop_transform
         (CropClip._update_bbox (crop_transform self) x0 x1 y0 y1) ;;
  self <~ get_self ;;
  lift (CropClip.__call__ (crop_transform self) clip bbox).

End RandomCropClip.

Module CenterCropClip.

Record t : Set := mk { crop_w : Z; crop_h : Z; crop_transform : CropClip.t }.

Definition __init__ (crop_w crop_h : Z) : t :=
  mk crop_w crop_h (CropClip.__init__ 0 0 crop_w crop_h).

(** [_calculate_center(self, frame_w, frame_h)] *)
Definition _calculate_center (self : t) (frame_w frame_h : Z) : Z * Z * Z * Z :=
  let xmin := py_int (inject_Z frame_w / 2 - inject_Z (crop_w self) / 2)%Q in
  let xmax := py_int (inject_Z frame_w / 2 + inject_Z (crop_w self) / 2)%Q in
  let ymin := py_int (inject_Z frame_h / 2 - inject_Z (crop_h self) / 2)%Q in
  let ymax := py_int (inject_Z frame_h / 2 + inject_Z (crop_h self) / 2)%Q in
  (xmin, xmax, ymin, ymax).

(** [__call__(self, clip, bbox=[])]; the state is [self]. *)
Definition __call__ (clip : pyclip) (bbox : boxset) : M t ret :=
  clip <~ lift (PreprocTransform._format_clip clip) ;;
  frame_shape <~ lift (first <- getitem (clip_items clip) 0 ;;
                       im <- as_image first ;; Ok (Image.size im)) ;;
  fun self =>
    let '(xmin, xmax, ymin, ymax) :=
      _calculate_center self (fst frame_shape) (snd frame_shape) in
    let self :=
      mk (crop_w self) (crop_h self)
        (CropClip._update_bbox (crop_transform self) xmin xmax ymin ymax) in
    (CropClip.__call__ (crop_transform self) clip bbox, self).

End CenterCropClip.

Module RandomFlipClip.

Record t : Set := mk { direction : string; p : Q }.

Definition __init__ (direction : string) (p : Q) : t := mk direction p.

(** [_random_flip(self)] *)
Definition _random_flip (self : t) : M np_random_state bool :=
  flip_prob <~ np_random.random ;;
  if Qle_bool (p self) flip_prob then ret_M false else ret_M true.

(** [_h_flip(self, bbox, frame_size)] *)
Definition _h_flip (bbox : list box) (frame_size : Z * Z) : result (list box) :=
  for_each (range (length bbox))
    (fun bbox_ind output_bbox =>
       ' (xmin, ymin, xmax, ymax) <- getitem bbox bbox_ind ;;
       let width := snd frame_size in
       let xmax_new := width - xmin in
       let xmin_new := width - xmax in
       setitem output_bbox bbox_ind (xmin_new, ymin, xmax_new, ymax))
    (zeros_like bbox).

(** A name no statement of the function has assigned. *)
Definition unassigned : result Z := Err NameError.

(** [_v_flip(self, bbox, frame_size)]: its last statement reads
    [xmin_new] and [xmax_new], which the function never assigns. *)
Definition _v_flip (bbox : list box) (frame_size : Z * Z) : result (list box) :=
  for_each (range (length bbox))
    (fun bbox_ind output_bbox =>
       ' (xmin, ymin, xmax, ymax) <- getitem bbox bbox_ind ;;
       let height := fst frame_size in
       let ymax_new := height - ymin in
       let ymin_new := height - ymax in
       xmin_new <- unassigned ;;
       xmax_new <- unassigned ;;
       setitem output_bbox bbox_ind (xmin_new, ymin, xmax_new, ymax))
    (zeros_like bbox).

Definition transpose (method : transpose_method) (f : frame) : result frame :=
  im <- as_image f ;; Ok (PILImage (Transposed im method)).

(** [_flip_data(self, clip, bbox=[])] *)
Definition _flip_data (self : t) (clip : pyclip) (bbox : boxset)
  : result (pyclip * boxset) :=
  if String.eqb (direction self) "h" then
    frames <- iterate clip ;;
    output_clip <- map_result (transpose FLIP_LEFT_RIGHT) frames ;;
    output_bbox <-
      (if bbox_given bbox then
         map_result
           (fun curr_bbox =>
              first <- getitem output_clip 0 ;;
              im <- as_image first ;;
              _h_flip curr_bbox (Image.size im))
           bbox
       else Ok []) ;;
    Ok (ClipList output_clip, output_bbox)
  else if String.eqb (direction self) "v" then
    frames <- iterate clip ;;
    output_clip <- map_result (transpose FLIP_TOP_BOTTOM) frames ;;
    output_bbox <-
      (if bbox_given bbox then
         map_result
           (fun curr_bbox =>
              first <- getitem output_clip 0 ;;
              im <- as_image first ;;
              _v_flip curr_bbox (Image.size im))
           bbox
       else Ok []) ;;
    Ok (ClipList output_clip, output_bbox)
  else Err UnboundLocalError.

(** [__call__(self, clip, bbox=[])] *)
Definition __call__ (self : t) (clip : pyclip) (bbox : boxset)
  : M np_random_state ret :=
  clip <~ lift (PreprocTransform._format_clip clip) ;;
  flip <~ _random_flip self ;;
  out <~ lift (if flip : bool then _flip_data self clip bbox else Ok (clip, bbox)) ;;
  if bbox_given bbox then ret_M (ClipAndBoxes (fst out) (snd out))
  else ret_M (ClipOnly (fst out)).

End RandomFlipClip.

(** A torch tensor, by shape and element type. *)
Record tensor : Set := mk_tensor { t_shape : list Z; t_elt : dtype }.

Module ToTensorClip.

(** [torch.from_numpy(a).float()] *)
Definition from_numpy_float (a : ndarray) : tensor := mk_tensor (shape a) float32.

(** [__call__(self, clip, bbox=[])]: the tensor, and the boxes when given. *)
Definition __call__ (clip : pyclip) (bbox : boxset) : result (tensor * boxset) :=
  clip <- PreprocTransform._format_clip_numpy clip ;;
  let clip := from_numpy_float clip in
  if bbox_given bbox then Ok (clip, bbox) else Ok (clip, []).

End ToTensorClip.

(** ** Rotation *)

Module np.

(** [np.deg2rad(angle)] *)
Definition deg2rad (angle : Z) : R := (IZR angle * PI / 180)%R.

(** [np.arctan2(y, x)]: the angle of the point (x, y), in (-pi, pi]. *)
Definition arctan2 (y x : R) : R :=
  (if Rlt_dec 0 x then atan (y / x)
   else if Rlt_dec x 0 then
     if Rle_dec 0 y then atan (y / x) + PI else atan (y / x) - PI
   else if Rlt_dec 0 y then PI / 2
   else if Rlt_dec y 0 then - (PI / 2)
   else 0)%R.

End np.

(** [int(x)] of a real: truncation toward zero. *)
Definition int_R (x : R) : Z :=
  if Rle_dec 0 x then Int_part x else - Int_part (- x).

(** [min(a, b, c, d)] and [max(a, b, c, d)] *)
Definition min4 (a b c d : R) : R := Rmin (Rmin (Rmin a b) c) d.
Definition max4 (a b c d : R) : R := Rmax (Rmax (Rmax a b) c) d.

Module RandomRotateClip.

Record t : Set := mk { angles : list Z }.

Definition __init__ (angles : list Z) : t := mk angles.

(** [_cart2pol(self, point)] *)
Definition _cart2pol (point : R * R) : R * R :=
  let '(x, y) := point in
  let rho := sqrt (x ^ 2 + y ^ 2)%R in
  let phi := np.arctan2 y x in
  (rho, phi).

(** [_pol2cart(self, point)] *)
Definition _pol2cart (point : R * R) : R * R :=
  let '(rho, phi) := point in
  let x := (rho * cos phi)%R in
  let y := (rho * sin phi)%R in
  (x, y).

(** The body of the loop of [_rotate_bbox] for one box. *)
Definition rotate_one (half_w half_h angle : R) (b : box) : box :=
  let '(xmin, ymin, xmax, ymax) := b in
  let tl := (IZR xmin - half_w, IZR ymax - half_h)%R in
  let tr := (IZR xmax - half_w, IZR ymax - half_h)%R in
  let bl := (IZR xmin - half_w, IZR ymin - half_h)%R in
  let br := (IZR xmax - half_w, IZR ymin - half_h)%R in
  let tl := _cart2pol tl in
  let tr := _cart2pol tr in
  let bl := _cart2pol bl in
  let br := _cart2pol br in
  let tl := (fst tl, snd tl + angle)%R in
  let tr := (fst tr, snd tr + angle)%R in
  let bl := (fst bl, snd bl + angle)%R in
  let br := (fst br, snd br + angle)%R in
  let tl := _pol2cart tl in
  let tr := _pol2cart tr in
  let bl := _pol2cart bl in
  let br := _pol2cart br in
  let tl := (fst tl + half_w, snd tl + half_h)%R in
  let tr := (fst tr + half_w, snd tr + half_h)%R in
  let bl := (fst bl + half_w, snd bl + half_h)%R in
  let br := (fst br + half_w, snd br + half_h)%R in
  let xmin_new := int_R (min4 (fst tl) (fst tr) (fst bl) (fst br)) in
  let xmax_new := int_R (max4 (fst tl) (fst tr) (fst bl) (fst br)) in
  let ymin_new := int_R (min4 (snd tl) (snd tr) (snd bl) (snd br)) in
  let ymax_new := int_R (max4 (snd tl) (snd tr) (snd bl) (snd br)) in
  (xmin_new, ymin_new, xmax_new, ymax_new).

(** [_rotate_bbox(self, bboxes, frame_shape, angle)] *)
Definition _rotate_bbox (bboxes : list box) (frame_shape : Z * Z) (angle : Z)
  : result (list box) :=
  let angle := np.deg2rad angle in
  let '(frame_h, frame_w) := frame_shape in
  let half_h := (IZR frame_h / 2)%R in
  let half_w := (IZR frame_w / 2)%R in
  for_each (range (length bboxes))
    (fun bbox_ind output_bboxes =>
       b <- getitem bboxes bbox_ind ;;
       setitem output_bboxes bbox_ind (rotate_one half_w half_h angle b))
    (zeros_like bboxes).

Definition rotate (angle : Z) (f : frame) : result frame :=
  im <- as_image f ;; Ok (PILImage (Rotated im angle)).

(** [__call__(self, clip, bbox=[])] *)
Definition __call__ (self : t) (clip : pyclip) (bbox : boxset)
  : M np_random_state ret :=
  angle <~ np_random.choice (angles self) ;;
  output_clip <~ lift (frames <- iterate clip ;; map_result (rotate angle) frames) ;;
  if bbox_given bbox then
    output_bboxes <~
      lift (for_each (range (length bbox))
              (fun bbox_ind output_bboxes =>
                 row <- getitem bbox bbox_ind ;;
                 first <- getitem (clip_items clip) 0 ;;
                 im <- as_image first ;;
                 r <- _rotate_bbox row (Image.size im) angle ;;
                 setitem output_bboxes bbox_ind r)
              (map zeros_like bbox)) ;;
    ret_M (ClipAndBoxes (ClipList output_clip) output_bboxes)
  else ret_M (ClipOnly (ClipList output_clip)).

End RandomRotateClip.

(** ** [ApplyToClip] *)

Module ApplyToClip.

(** [self.transform]: a single-frame operator, any callable. *)
Record t : Type := mk { transform : frame -> result frame }.

Definition __init__ (transform : frame -> result frame) : t := mk transform.

(** [__call__(self, clip, bbox=[])] *)
Definition __call__ (self : t) (clip : pyclip) (bbox : boxset) : result ret :=
  frames <- iterate clip ;;
  output_clip <-
    for_each frames
      (fun frame output_clip =>
         y <- transform self frame ;; Ok (output_clip ++ [y]))
      [] ;;
  if bbox_given bbox then Ok (ClipAndBoxes (ClipList output_clip) bbox)
  else Ok (ClipOnly (ClipList output_clip)).

End ApplyToClip.

(** ** Pipeline composition *)

(** Modelled from the spec: the closed set of transform units behind the
    one call contract [apply(clip, boxes) -> (clip', boxes')] of
    sections 4.3 and 9.  The module has the six classes and no such
    type; each unit keeps the fields of its instance. *)
Inductive TransformUnit : Type :=
| Resize (u : ResizeClip.t)
| Crop (u : CropClip.t)
| RandomCrop (u : RandomCropClip.t)
| CenterCrop (u : CenterCropClip.t)
| RandomFlip (u : RandomFlipClip.t)
| RandomRotate (u : RandomRotateClip.t).

(** Modelled from the spec: [apply] of a unit is the [__call__] of its
    class; the unit comes back with the fields the call has written. *)
Definition apply (u : TransformUnit) (clip : pyclip) (boxes : boxset)
  : np_random_state -> result ret * (TransformUnit * np_random_state) :=
  fun st =>
    match u with
    | Resize r => (ResizeClip.__call__ r clip boxes, (u, st))
    | Crop c => (CropClip.__call__ c clip boxes, (u, st))
    | RandomCrop rc =>
        let '(res, (rc', st')) := RandomCropClip.__call__ clip boxes (rc, st) in
        (res, (RandomCrop rc', st'))
    | CenterCrop cc =>
        let '(res, cc') := CenterCropClip.__call__ clip boxes cc in
        (res, (CenterCrop cc', st))
    | RandomFlip f =>
        let '(res, st') := RandomFlipClip.__call__ f clip boxes st in
        (res, (u, st'))
    | RandomRotate r =>
        let '(res, st') := RandomRotateClip.__call__ r clip boxes st in
        (res, (u, st'))
    end.

(** Modelled from the spec: [apply_sequence(units, clip, boxes)] of
    section 4.4, a fold over the units from left to right, each output
    the next input; the first failing unit aborts the sequence.  The
    module has no composition function. *)
Fixpoint apply_sequence (units : list TransformUnit) (clip : pyclip)
  (boxes : boxset) (st : np_random_state)
  : result (pyclip * boxset) * (list TransformUnit * np_random_state) :=
  match units with
  | [] => (Ok (clip, boxes), ([], st))
  | u :: rest =>
      match apply u clip boxes st with
      | (Ok r, (u', st')) =>
          let '(res, (rest', st'')) :=
            apply_sequence rest (ret_clip r) (ret_bbox r) st' in
          (res, (u' :: rest', st''))
      | (Err e, (u', st')) => (Err e, (u' :: rest, st'))
      end
  end.

(** ** Notions used to state the properties *)

(** A row of zeros of which the first [k] slots have been overwritten by
    [f] of the box of that slot. *)
Definition written (f : box -> box) (row : list box) (k : nat) : list box :=
  map f (firstn k row) ++ repeat (0, 0, 0, 0) (length row - k).


(** The call of [crop_bbox] in [CropClip.__call__] for the box [b]. *)
Definition crop_call (self : CropClip.t) (b : box) : box :=
  let '(xmin, ymin, xmax, ymax) := b in
  crop_bbox xmin ymin xmax ymax (CropClip.bbox_xmin self) (CropClip.bbox_xmax self)
    (CropClip.bbox_ymin self) (CropClip.bbox_ymax self).




(** A frame with pixels: both extents are positive. *)
Definition has_extent (im : image) : Prop :=
  0 < fst (Image.size im) /\ 0 < snd (Image.size im).

(** The clip made of the images [ims]. *)
Definition clip_of (ims : list image) : pyclip := ClipList (map PILImage ims).

(** A unit that runs on every clip of images with pixels and returns
    such a clip: Resize to a positive size, Crop and CenterCrop with a
    window of positive width and height, a flip whose direction is 'h'
    or 'v', a rotation with at least one angle.  (RandomCrop needs
    frames larger than its window.) *)
Definition runs_on_images (u : TransformUnit) : Prop :=
  match u with
  | Resize r => 0 < ResizeClip.size_w r /\ 0 < ResizeClip.size_h r
  | Crop c =>
      CropClip.bbox_xmin c < CropClip.bbox_xmax c
      /\ CropClip.bbox_ymin c < CropClip.bbox_ymax c
  | CenterCrop c => 0 < CenterCropClip.crop_w c /\ 0 < CenterCropClip.crop_h c
  | RandomCrop _ => False
  | RandomFlip f =>
      RandomFlipClip.direction f = "h"%string \/ RandomFlipClip.direction f = "v"%string
  | RandomRotate r => RandomRotateClip.angles r <> []
  end.

(** A box with xmin <= xmax and ymin <= ymax, as a row (xmin, ymin,
    xmax, ymax). *)
Definition ordered (b : box) : Prop :=
  let '(xmin, ymin, xmax, ymax) := b in xmin <= xmax /\ ymin <= ymax.

(** An element of a clip that is a PIL image of the given size. *)
Definition image_of_size (sz : Z * Z) (f : frame) : Prop :=
  exists im, f = PILImage im /\ Image.size im = sz.

(** * Properties *)

(** ** The crop primitive *)

Lemma crop_bbox_disjoint xmin xmax ymin ymax cxmin cxmax cymin cymax :
  xmin >= cxmax \/ xmax <= cxmin \/ ymin >= cymax \/ ymax <= cymin ->
  crop_bbox xmin xmax ymin ymax cxmin cxmax cymin cymax = (-1, -1, -1, -1).
Proof.
  intros H. unfold crop_bbox.
  destruct (xmin >=? cxmax) eqn:E1; [reflexivity|].
  destruct (xmax <=? cxmin) eqn:E2; [reflexivity|].
  destruct (ymin >=? cymax) eqn:E3; [reflexivity|].
  destruct (ymax <=? cymin) eqn:E4; [reflexivity|].
  exfalso. lia.
Qed.

Lemma crop_bbox_overlap xmin xmax ymin ymax cxmin cxmax cymin cymax :
  ~ (xmin >= cxmax \/ xmax <= cxmin \/ ymin >= cymax \/ ymax <= cymin) ->
  crop_bbox xmin xmax ymin ymax cxmin cxmax cymin cymax
  = (Z.max xmin cxmin, Z.min xmax cxmax, Z.max ymin cymin, Z.min ymax cymax).
Proof.
  intros H. unfold crop_bbox.
  destruct (xmin >=? cxmax) eqn:E1; [exfalso; lia|].
  destruct (xmax <=? cxmin) eqn:E2; [exfalso; lia|].
  destruct (ymin >=? cymax) eqn:E3; [exfalso; lia|].
  destruct (ymax <=? cymin) eqn:E4; [exfalso; lia|].
  cbn [orb].
  destruct (ymax >? cymax) eqn:F1, (xmax >? cxmax) eqn:F2,
           (ymin <? cymin) eqn:F3, (xmin <? cxmin) eqn:F4;
    repeat f_equal; lia.
Qed.

(** C2, as stated, fails: the box (-1,-1,-1,-1) lies inside the crop
    rectangle x in [-2,0], y in [-2,0]; all four orderings of the claim
    hold and the strict rule finds an overlap, yet the value returned is
    the sentinel (-1,-1,-1,-1), which clipping leaves as it is. *)
Lemma crop_bbox_sentinel_despite_overlap :
  (-1 <= -1 /\ -1 <= -1 /\ -2 <= 0 /\ -2 <= 0)
  /\ ~ (-1 >= 0 \/ -1 <= -2 \/ -1 >= 0 \/ -1 <= -2)
  /\ crop_bbox (-1) (-1) (-1) (-1) (-2) 0 (-2) 0 = (-1, -1, -1, -1).
Proof.
  split; [lia|]. split; [lia|]. reflexivity.
Qed.

(** C2, amended: for every box with xmin <= xmax and ymin <= ymax and
    every crop rectangle with crop_xmin <= crop_xmax, crop_ymin <=
    crop_ymax and an origin that is non-negative on at least one axis
    (as every rectangle inside a frame has), [crop_bbox], called with
    its parameters in their declared order, returns the sentinel
    (-1,-1,-1,-1) if and only if the box and the rectangle do not
    overlap under the strict rule; otherwise it returns the box clipped
    edge by edge, (max(xmin,crop_xmin), min(xmax,crop_xmax),
    max(ymin,crop_ymin), min(ymax,crop_ymax)) in the order (xmin, xmax,
    ymin, ymax), which lies inside the crop rectangle and is in the
    coordinates of the frame, the crop origin not subtracted. *)
Theorem crop_bbox_sentinel_iff_no_overlap
  (xmin xmax ymin ymax cxmin cxmax cymin cymax : Z) :
  xmin <= xmax -> ymin <= ymax ->
  cxmin <= cxmax -> cymin <= cymax ->
  0 <= cxmin \/ 0 <= cymin ->
  let out := crop_bbox xmin xmax ymin ymax cxmin cxmax cymin cymax in
  (out = (-1, -1, -1, -1)
   <-> (xmin >= cxmax \/ xmax <= cxmin \/ ymin >= cymax \/ ymax <= cymin))
  /\ (out <> (-1, -1, -1, -1) ->
      exists xmin_new xmax_new ymin_new ymax_new,
        out = (xmin_new, xmax_new, ymin_new, ymax_new)
        /\ xmin_new = Z.max xmin cxmin /\ xmax_new = Z.min xmax cxmax
        /\ ymin_new = Z.max ymin cymin /\ ymax_new = Z.min ymax cymax
        /\ cxmin <= xmin_new <= xmax_new /\ xmax_new <= cxmax
        /\ cymin <= ymin_new <= ymax_new /\ ymax_new <= cymax).
Proof.
  intros Hx Hy Hcx Hcy H0 out.
  assert (Hdec : (xmin >= cxmax \/ xmax <= cxmin \/ ymin >= cymax \/ ymax <= cymin)
                 \/ ~ (xmin >= cxmax \/ xmax <= cxmin \/ ymin >= cymax \/ ymax <= cymin))
    by lia.
  destruct Hdec as [Hd | Ho].
  - pose proof (crop_bbox_disjoint _ _ _ _ _ _ _ _ Hd) as E. fold out in E.
    split.
    + split; intros _; assumption.
    + intros Hne. contradiction.
  - pose proof (crop_bbox_overlap _ _ _ _ _ _ _ _ Ho) as E. fold out in E.
    split.
    + split; intros H; [|contradiction].
      rewrite E in H. exfalso. inversion H. lia.
    + intros _. exists (Z.max xmin cxmin), (Z.min xmax cxmax),
        (Z.max ymin cymin), (Z.min ymax cymax).
      repeat split; try assumption; try reflexivity; lia.
Qed.

(** The box (5,5)-(25,25) against the rectangle (15,15)-(35,35). *)
Lemma crop_bbox_sentinel_iff_no_overlap_witness :
  let out := crop_bbox 5 25 5 25 15 35 15 35 in
  (out = (-1, -1, -1, -1) <-> (5 >= 35 \/ 25 <= 15 \/ 5 >= 35 \/ 25 <= 15))
  /\ (out <> (-1, -1, -1, -1) ->
      exists xmin_new xmax_new ymin_new ymax_new,
        out = (xmin_new, xmax_new, ymin_new, ymax_new)
        /\ xmin_new = Z.max 5 15 /\ xmax_new = Z.min 25 35
        /\ ymin_new = Z.max 5 15 /\ ymax_new = Z.min 25 35
        /\ 15 <= xmin_new <= xmax_new /\ xmax_new <= 35
        /\ 15 <= ymin_new <= ymax_new /\ ymax_new <= 35).
Proof.
  apply (crop_bbox_sentinel_iff_no_overlap 5 25 5 25 15 35 15 35); lia.
Defined.

(** ** Loops and indexing *)

Lemma for_each_app {A S : Type} (l1 l2 : list A) (body : A -> S -> result S) s :
  for_each (l1 ++ l2) body s = (s' <- for_each l1 body s ;; for_each l2 body s').
Proof.
  revert s. induction l1 as [|x l1 IH]; intros s; cbn; [reflexivity|].
  destruct (body x s); cbn; [apply IH | reflexivity].
Qed.

(** A loop whose body, when it returns, has added one to a measure of
    the state, has added the number of its rounds when it returns. *)
Lemma for_each_measure {A S : Type} (mu : S -> nat) (l : list A)
  (body : A -> S -> result S) :
  (forall x s s', body x s = Ok s' -> mu s' = Datatypes.S (mu s)) ->
  forall s s', for_each l body s = Ok s' -> (mu s' = mu s + length l)%nat.
Proof.
  intros Hb. induction l as [|x l IH]; intros s s' H; cbn in *.
  - inversion H. lia.
  - destruct (body x s) as [s1|e] eqn:E; cbn in H; [|discriminate].
    apply Hb in E. apply IH in H. lia.
Qed.

Lemma map_result_length {A B : Type} (f : A -> result B) (l : list A) l' :
  map_result f l = Ok l' -> length l' = length l.
Proof.
  revert l'. induction l as [|x l IH]; intros l' H; cbn in *.
  - inversion H. reflexivity.
  - destruct (f x); cbn in H; [|discriminate].
    destruct (map_result f l) as [ys|]; cbn in H; [|discriminate].
    inversion H. cbn. f_equal. apply IH. reflexivity.
Qed.

Lemma getitem_some {A : Type} (l : list A) i x :
  nth_error l i = Some x -> getitem l i = Ok x.
Proof. unfold getitem. intros ->. reflexivity. Qed.

Lemma nth_error_in_range {A : Type} (l : list A) i :
  (i < length l)%nat -> exists x, nth_error l i = Some x.
Proof.
  intros H. destruct (nth_error l i) eqn:E; [eauto|].
  apply nth_error_None in E. lia.
Qed.

Lemma setitem_middle {A : Type} (pre post : list A) (x y : A) :
  setitem (pre ++ x :: post) (length pre) y = Ok (pre ++ y :: post).
Proof.
  induction pre as [|a pre IH]; cbn; [reflexivity|].
  rewrite IH. reflexivity.
Qed.

Lemma firstn_snoc {A : Type} (l : list A) k x :
  nth_error l k = Some x -> firstn (S k) l = firstn k l ++ [x].
Proof.
  revert k. induction l as [|a l IH]; intros [|k] H; cbn in *; try discriminate.
  - inversion H. reflexivity.
  - f_equal. apply IH. exact H.
Qed.

Lemma skipn_cons {A : Type} (l : list A) k x :
  nth_error l k = Some x -> skipn k l = x :: skipn (S k) l.
Proof.
  revert k. induction l as [|a l IH]; intros [|k] H; cbn in *; try discriminate.
  - inversion H. reflexivity.
  - apply IH. exact H.
Qed.

(** ** The slot loop of [ResizeClip] and [CropClip]

    The inner loop runs [class_ind] over [range(len(bbox))] and writes
    slot [class_ind] of a row of zeros.  [f] is what it writes for a box
    and [n] the number of rounds. *)
Section SlotLoop.

Variable row : list box.
Variable f : box -> box.
Variable body : nat -> list box -> result (list box).

Hypothesis body_in : forall j temp b,
  nth_error row j = Some b -> body j temp = setitem temp j (f b).
Hypothesis body_out : forall j temp,
  nth_error row j = None -> body j temp = Err IndexError.

Lemma slot_loop_from k n :
  (k + n <= length row)%nat ->
  for_each (seq k n) body (written f row k) = Ok (written f row (k + n)).
Proof.
  revert k. induction n as [|n IH]; intros k Hk; cbn.
  - rewrite Nat.add_0_r. reflexivity.
  - destruct (nth_error_in_range row k ltac:(lia)) as [b Hb].
    rewrite (body_in _ _ _ Hb).
    assert (E : setitem (written f row k) k (f b) = Ok (written f row (S k))).
    { unfold written. rewrite (firstn_snoc _ _ _ Hb).
      replace (length row - k)%nat with (S (length row - S k)) by lia.
      cbn [repeat]. rewrite map_app. cbn [map]. rewrite <- app_assoc. cbn [app].
      replace k with (length (map f (firstn k row))) at 3.
      - apply setitem_middle.
      - rewrite length_map, length_firstn. lia. }
    rewrite E. cbn. rewrite IH by lia. f_equal. f_equal. lia.
Qed.

Lemma slot_loop_ok n :
  (n <= length row)%nat ->
  for_each (range n) body (zeros_like row) = Ok (written f row n).
Proof.
  intros H. unfold range, zeros_like.
  assert (E : repeat (0, 0, 0, 0) (length row) = written f row 0).
  { unfold written. cbn. rewrite Nat.sub_0_r. reflexivity. }
  rewrite E. apply (slot_loop_from 0 n). lia.
Qed.


End SlotLoop.

(** ** The frame loop of [ResizeClip] and [CropClip]

    The outer loop runs [frame_ind] over [range(len(clip))]; a round
    appends the processed frame and, when boxes are given, the row the
    slot loop has built for [bbox[frame_ind]]. *)
Section FrameLoop.

Variable ims : list image.
Variable bbox : boxset.
Variable op : image -> image.
Variable f : image -> box -> box.
Variable good : image -> Prop.
Variable body :
  nat -> list frame * list (list box) -> result (list frame * list (list box)).

Hypothesis body_ok : forall i oc (ob : list (list box)) im row,
  nth_error ims i = Some im -> good im ->
  nth_error bbox i = Some row -> (length bbox <= length row)%nat ->
  body i (oc, ob)
  = Ok (oc ++ [PILImage (op im)], ob ++ [written (f im) row (length bbox)]).
Hypothesis body_short : forall i s im row,
  nth_error ims i = Some im -> good im ->
  nth_error bbox i = Some row -> (length row < length bbox)%nat ->
  body i s = Err IndexError.
Hypothesis body_nobox : forall i s im,
  nth_error ims i = Some im -> nth_error bbox i = None ->
  body i s = Err IndexError.

Hypothesis all_good : Forall good ims.






End FrameLoop.

(** ** What the two units write for a box *)


Lemma resize_returns (im : image) (w h : Z) :
  0 < w -> 0 < h -> Image.resize im (w, h) = Ok (Resized im (w, h)).
Proof.
  intros Hw Hh. unfold Image.resize. destruct (Image.size im) as [w0 h0].
  destruct (Z.ltb_spec 0 w); [|lia]. destruct (Z.ltb_spec 0 h); [|lia].
  rewrite orb_true_r. reflexivity.
Qed.

Lemma crop_returns (im : image) (x0 y0 x1 y1 : Z) :
  x0 <= x1 -> y0 <= y1 -> Image.crop im (x0, y0, x1, y1) = Ok (Cropped im (x0, y0, x1, y1)).
Proof.
  intros Hx Hy. unfold Image.crop.
  destruct (Z.ltb_spec x1 x0); [lia|]. destruct (Z.ltb_spec y1 y0); [lia|].
  reflexivity.
Qed.

Lemma crop_ok_inv (im im' : image) (bx : Z * Z * Z * Z) :
  Image.crop im bx = Ok im' -> im' = Cropped im bx.
Proof.
  unfold Image.crop. destruct bx as [[[x0 y0] x1] y1].
  destruct (_ || _); intros H; inversion H. reflexivity.
Qed.

Lemma format_clip_images (ims : list image) :
  ims <> [] -> PreprocTransform._format_clip (clip_of ims) = Ok (clip_of ims).
Proof.
  destruct ims as [|im rest]; [contradiction|]. reflexivity.
Qed.


Lemma nth_error_image (ims : list image) i im :
  nth_error ims i = Some im ->
  getitem (clip_items (clip_of ims)) i = Ok (PILImage im).
Proof.
  intros H. apply getitem_some. cbn. rewrite nth_error_map, H. reflexivity.
Qed.





(** ** The number of frames *)

(** Splits a hypothesis [x <- c ;; k = Ok r] on the outcome of [c]. *)
Ltac split_bind H :=
  repeat match type of H with
    | bind ?c _ = Ok _ =>
        let E := fresh "E" in
        destruct c eqn:E; cbn [bind] in H; [|discriminate H]
    end.

Lemma format_clip_len (clip clip' : pyclip) :
  PreprocTransform._format_clip clip = Ok clip' -> clip_len clip' = clip_len clip.
Proof.
  unfold PreprocTransform._format_clip. intros H.
  assert (G : forall items : list frame,
             (first <- getitem items 0 ;;
              if is_ndarray first then
                output_clip <-
                  for_each items
                    (fun frame output_clip =>
                       sz <- size_attr frame ;;
                       n <- py_len sz ;;
                       if Nat.eqb n 3 then
                         im <- fromarray frame (Some Mode_F) ;;
                         Ok (output_clip ++ [PILImage im])
                       else Err PdbBreakpoint)
                    [] ;;
                Ok (ClipList output_clip)
              else Ok clip) = Ok clip' ->
             clip_len clip' = clip_len clip \/ clip_len clip' = length items).
  { intros items G. split_bind G.
    destruct (is_ndarray a).
    - split_bind G. inversion G; subst. right. unfold clip_len. cbn [clip_items].
      apply (for_each_measure (@length frame)) in E0; [exact E0|].
      intros x s s' Hb. split_bind Hb.
      match type of Hb with (if ?c then _ else _) = _ => destruct c end;
        [|discriminate].
      split_bind Hb. inversion Hb. rewrite length_app. cbn. lia.
    - inversion G. left. reflexivity. }
  destruct clip as [frames | a | cls]; [| |discriminate];
    apply G in H; destruct H as [H|H]; exact H.
Qed.

Lemma iterate_items (clip : pyclip) (frames : list frame) :
  iterate clip = Ok frames -> frames = clip_items clip.
Proof.
  destruct clip as [l | a | cls]; cbn; intros H.
  - inversion H. reflexivity.
  - destruct (shape a); [discriminate|]. inversion H. reflexivity.
  - discriminate.
Qed.

Lemma ResizeClip_len (self : ResizeClip.t) clip bbox r :
  ResizeClip.__call__ self clip bbox = Ok r ->
  clip_len (ret_clip r) = clip_len clip.
Proof.
  unfold ResizeClip.__call__. intros H. split_bind H.
  apply format_clip_len in E. rewrite <- E. destruct a0 as [oc ob].
  apply (for_each_measure (fun s => length (fst s))) in E0.
  - cbn in E0. unfold range in E0. rewrite length_seq in E0.
    destruct (bbox_given bbox); inversion H; exact E0.
  - intros i [oc1 ob1] [oc2 ob2] Hb. cbn beta iota in Hb. split_bind Hb.
    destruct (bbox_given bbox).
    + split_bind Hb. inversion Hb. cbn. rewrite length_app. cbn. lia.
    + inversion Hb. cbn. rewrite length_app. cbn. lia.
Qed.

Lemma CropClip_len (self : CropClip.t) clip bbox r :
  CropClip.__call__ self clip bbox = Ok r ->
  clip_len (ret_clip r) = clip_len clip.
Proof.
  unfold CropClip.__call__. intros H. split_bind H.
  apply format_clip_len in E. rewrite <- E. destruct a0 as [oc ob].
  apply (for_each_measure (fun s => length (fst s))) in E0.
  - cbn in E0. unfold range in E0. rewrite length_seq in E0.
    destruct (bbox_given bbox); inversion H; exact E0.
  - intros i [oc1 ob1] [oc2 ob2] Hb. cbn beta iota in Hb. split_bind Hb.
    destruct (bbox_given bbox).
    + split_bind Hb. inversion Hb. cbn. rewrite length_app. cbn. lia.
    + inversion Hb. cbn. rewrite length_app. cbn. lia.
Qed.

Lemma bind_M_ok {S A B : Type} (c : M S A) (k : A -> M S B) s r s' :
  bind_M c k s = (Ok r, s') ->
  exists a s1, c s = (Ok a, s1) /\ k a s1 = (Ok r, s').
Proof.
  unfold bind_M. destruct (c s) as [[a|e] s1]; intros H.
  - exists a, s1. split; [reflexivity|exact H].
  - discriminate.
Qed.

Lemma lift_ok {S A : Type} (c : result A) (s s' : S) a :
  lift c s = (Ok a, s') -> c = Ok a.
Proof. unfold lift. intros H. inversion H. reflexivity. Qed.

(** Peels the calls of a chain [x <~ c ;; k] that has returned. *)
Ltac peel H :=
  repeat (let a := fresh "a" in
          let s := fresh "s" in
          let H1 := fresh "H" in
          apply bind_M_ok in H; destruct H as (a & s & H1 & H); cbn beta in H).

Lemma RandomCropClip_len clip bbox s r s' :
  RandomCropClip.__call__ clip bbox s = (Ok r, s') ->
  clip_len (ret_clip r) = clip_len clip.
Proof.
  unfold RandomCropClip.__call__. intros H. peel H.
  apply lift_ok in H, H0. apply CropClip_len in H. apply format_clip_len in H0.
  congruence.
Qed.

Lemma CenterCropClip_len clip bbox s r s' :
  CenterCropClip.__call__ clip bbox s = (Ok r, s') ->
  clip_len (ret_clip r) = clip_len clip.
Proof.
  unfold CenterCropClip.__call__. intros H. peel H.
  apply lift_ok in H0. apply format_clip_len in H0.
  destruct (CenterCropClip._calculate_center s1 (fst a0) (snd a0))
    as [[[x0 x1] y0] y1].
  inversion H as [[Hc Hs]]. apply CropClip_len in Hc. cbn in Hc. congruence.
Qed.

Lemma flip_data_len (self : RandomFlipClip.t) clip bbox out :
  RandomFlipClip._flip_data self clip bbox = Ok out ->
  clip_len (fst out) = clip_len clip.
Proof.
  unfold RandomFlipClip._flip_data. intros H.
  destruct (String.eqb (RandomFlipClip.direction self) "h");
    [|destruct (String.eqb (RandomFlipClip.direction self) "v"); [|discriminate]];
    split_bind H; inversion H; cbn;
    apply iterate_items in E; apply map_result_length in E0;
    unfold clip_len; cbn; congruence.
Qed.

Lemma RandomFlipClip_len (self : RandomFlipClip.t) clip bbox st r st' :
  RandomFlipClip.__call__ self clip bbox st = (Ok r, st') ->
  clip_len (ret_clip r) = clip_len clip.
Proof.
  unfold RandomFlipClip.__call__. intros H. peel H.
  apply lift_ok in H0, H2. apply format_clip_len in H0.
  assert (Hout : clip_len (fst a1) = clip_len a).
  { destruct a0; [apply flip_data_len in H2; exact H2|].
    inversion H2. reflexivity. }
  destruct (bbox_given bbox); inversion H; cbn; congruence.
Qed.

Lemma RandomRotateClip_len (self : RandomRotateClip.t) clip bbox st r st' :
  RandomRotateClip.__call__ self clip bbox st = (Ok r, st') ->
  clip_len (ret_clip r) = clip_len clip.
Proof.
  unfold RandomRotateClip.__call__. intros H.
  apply bind_M_ok in H. destruct H as (angle & s1 & _ & H). cbn beta in H.
  apply bind_M_ok in H. destruct H as (oc & s2 & Hoc & H). cbn beta in H.
  apply lift_ok in Hoc. split_bind Hoc.
  apply iterate_items in E. apply map_result_length in Hoc.
  assert (Hlen : clip_len (ClipList oc) = clip_len clip).
  { unfold clip_len. cbn. congruence. }
  destruct (bbox_given bbox).
  - apply bind_M_ok in H. destruct H as (ob & s3 & _ & H). inversion H. exact Hlen.
  - inversion H. exact Hlen.
Qed.

Lemma apply_len (u : TransformUnit) clip boxes st r s' :
  apply u clip boxes st = (Ok r, s') ->
  clip_len (ret_clip r) = clip_len clip.
Proof.
  destruct u as [u|u|u|u|u|u]; cbn [apply]; intros H.
  - inversion H as [[Hr Hs]]. apply ResizeClip_len in Hr. exact Hr.
  - inversion H as [[Hr Hs]]. apply CropClip_len in Hr. exact Hr.
  - destruct (RandomCropClip.__call__ clip boxes (u, st)) as [res [u' st']] eqn:E.
    cbn in H. inversion H; subst. apply RandomCropClip_len in E. exact E.
  - destruct (CenterCropClip.__call__ clip boxes u) as [res u'] eqn:E.
    cbn in H. inversion H; subst. apply CenterCropClip_len in E. exact E.
  - destruct (RandomFlipClip.__call__ u clip boxes st) as [res st'] eqn:E.
    cbn in H. inversion H; subst. apply RandomFlipClip_len in E. exact E.
  - destruct (RandomRotateClip.__call__ u clip boxes st) as [res st'] eqn:E.
    cbn in H. inversion H; subst. apply RandomRotateClip_len in E. exact E.
Qed.

Lemma apply_sequence_single (u : TransformUnit) clip boxes st :
  apply_sequence [u] clip boxes st
  = match apply u clip boxes st with
    | (Ok r, (u', st')) => (Ok (ret_clip r, ret_bbox r), ([u'], st'))
    | (Err e, (u', st')) => (Err e, ([u'], st'))
    end.
Proof.
  cbn. destruct (apply u clip boxes st) as [[r|e] [u' st']]; reflexivity.
Qed.

(** C8: for every input clip and every sequence of units among Resize,
    Crop, RandomCrop, CenterCrop, RandomFlip and RandomRotate (a unit
    alone is the sequence of that unit, [apply_sequence_single]), the
    output clip has exactly the number of frames of the input clip. *)
Theorem pipeline_length_invariance
  (units : list TransformUnit) (clip : pyclip) (boxes : boxset)
  (st : np_random_state) (out : pyclip * boxset)
  (s' : list TransformUnit * np_random_state) :
  apply_sequence units clip boxes st = (Ok out, s') ->
  clip_len (fst out) = clip_len clip.
Proof.
  revert clip boxes st out s'.
  induction units as [|u rest IH]; intros clip boxes st out s' H; cbn in H.
  - inversion H. reflexivity.
  - destruct (apply u clip boxes st) as [[r|e] [u' st']] eqn:E; [|discriminate].
    destruct (apply_sequence rest (ret_clip r) (ret_bbox r) st')
      as [res [rest' st'']] eqn:E'.
    inversion H; subst. apply IH in E'. apply apply_len in E. congruence.
Qed.

(** A clip of four 100x100 frames through the six units in a row. *)
Lemma pipeline_length_invariance_witness :
  let units :=
    [Resize (ResizeClip.__init__ 50 50); Crop (CropClip.__init__ 2 48 2 48);
     RandomCrop (RandomCropClip.__init__ 20 20);
     CenterCrop (CenterCropClip.__init__ 10 10);
     RandomFlip (RandomFlipClip.__init__ "h" (1 # 2));
     RandomRotate (RandomRotateClip.__init__ [0; 90; 180; 270])] in
  let clip := clip_of (repeat (Decoded Mode_RGB 100 100) 4) in
  let st := mk_state (fun _ => 7%N) 0 in
  exists out s',
    apply_sequence units clip [] st = (Ok out, s')
    /\ clip_len (fst out) = clip_len clip.
Proof.
  intros units clip st. eexists. eexists. split.
  - vm_compute. reflexivity.
  - eapply (pipeline_length_invariance units clip [] st).
    vm_compute. reflexivity.
Defined.

(** ** Box rows and the number of frames *)

Lemma written_full (f : box -> box) (row : list box) :
  written f row (length row) = map f row.
Proof.
  unfold written. rewrite firstn_all, Nat.sub_diag. cbn. apply app_nil_r.
Qed.

(** ** The window of [RandomCropClip] *)





(** A frame loop that has returned has processed every element, each an
    image, by the one operation [op]. *)
Lemma frames_processed (items : list frame) (op : image -> image)
  (body : nat -> list frame * list (list box) -> result (list frame * list (list box))) :
  (forall i oc ob oc' ob',
      body i (oc, ob) = Ok (oc', ob') ->
      exists im, nth_error items i = Some (PILImage im)
                 /\ oc' = oc ++ [PILImage (op im)]) ->
  forall n i oc ob oc' ob',
    for_each (seq i n) body (oc, ob) = Ok (oc', ob') ->
    exists ims,
      firstn n (skipn i items) = map PILImage ims
      /\ oc' = oc ++ map (fun im => PILImage (op im)) ims.
Proof.
  intros Hbody. induction n as [|n IH]; intros i oc ob oc' ob' H; cbn in H.
  - inversion H. exists []. cbn. rewrite app_nil_r. split; reflexivity.
  - destruct (body i (oc, ob)) as [[oc1 ob1]|e] eqn:E; [|discriminate].
    cbn [bind] in H. apply Hbody in E. destruct E as (im & Him & ->).
    apply IH in H. destruct H as (ims & Hims & ->).
    exists (im :: ims). rewrite (skipn_cons _ _ _ Him). cbn [firstn map].
    rewrite Hims, <- app_assoc. split; reflexivity.
Qed.

Lemma CropClip_frames (self : CropClip.t) (im : image) (rest : list frame) bbox r :
  CropClip.__call__ self (ClipList (PILImage im :: rest)) bbox = Ok r ->
  exists ims,
    PILImage im :: rest = map PILImage ims
    /\ ret_clip r
       = clip_of (map (fun f =>
           Cropped f (CropClip.bbox_xmin self, CropClip.bbox_ymin self,
                      CropClip.bbox_xmax self, CropClip.bbox_ymax self)) ims).
Proof.
  unfold CropClip.__call__.
  change (PreprocTransform._format_clip (ClipList (PILImage im :: rest)))
    with (Ok (ClipList (PILImage im :: rest))).
  cbn [bind]. intros H. split_bind H. destruct a as [oc ob].
  unfold range in E.
  apply (frames_processed (PILImage im :: rest)
           (fun f => Cropped f (CropClip.bbox_xmin self, CropClip.bbox_ymin self,
                                CropClip.bbox_xmax self, CropClip.bbox_ymax self))) in E.
  - destruct E as (ims & Hims & ->).
    unfold clip_len in Hims. cbn [clip_items skipn] in Hims.
    rewrite firstn_all in Hims. exists ims. split; [exact Hims|].
    unfold clip_of. rewrite map_map.
    destruct (bbox_given bbox); inversion H; reflexivity.
  - intros i oc1 ob1 oc2 ob2 Hb. cbn beta iota in Hb.
    destruct (getitem (clip_items (ClipList (PILImage im :: rest))) i)
      as [fr|] eqn:E0; cbn [bind] in Hb; [|discriminate].
    destruct fr as [f| |]; try discriminate. cbn [as_image bind] in Hb.
    destruct (Image.crop f _) as [c|] eqn:E2; cbn [bind] in Hb; [|discriminate].
    apply crop_ok_inv in E2. subst c.
    exists f. split.
    + unfold getitem in E0. cbn [clip_items] in E0.
      destruct (nth_error (PILImage im :: rest) i); inversion E0. reflexivity.
    + destruct (bbox_given bbox).
      * split_bind Hb. inversion Hb. reflexivity.
      * inversion Hb. reflexivity.
Qed.



(** ** The frame adapter *)

(** C7, as stated, fails: the first element of this clip is neither a
    decoded image nor a numeric array, and the clip is accepted and
    returned as it is. *)
Lemma format_clip_accepts_unclassified :
  PreprocTransform._format_clip (ClipList [PyObject "str"; PyObject "str"])
  = Ok (ClipList [PyObject "str"; PyObject "str"]).
Proof. reflexivity. Qed.

(** C7, amended: the frame-normalization step classifies no first
    element as unsupported.  For a clip whose first element is not a
    numeric array it fails only when the clip is neither a list nor an
    array (the assertion) or is empty (IndexError); otherwise the clip
    is accepted and returned unchanged, whether its first element is a
    decoded image or an object of any other class. *)
Theorem format_clip_passes_through (clip : pyclip) :
  (forall a, nth_error (clip_items clip) 0 <> Some (NdArray a)) ->
  PreprocTransform._format_clip clip
  = match clip with
    | ClipOther _ => Err AssertionError
    | _ =>
        match clip_items clip with
        | [] => Err IndexError
        | _ :: _ => Ok clip
        end
    end.
Proof.
  intros Hfirst. unfold PreprocTransform._format_clip.
  destruct clip as [frames|a|cls]; [| |reflexivity].
  - destruct frames as [|f rest]; [reflexivity|].
    destruct f as [im|a|cls]; try reflexivity.
    exfalso. apply (Hfirst a). reflexivity.
  - cbn [clip_items] in *.
    destruct (shape a) as [|n [|m sh]]; [reflexivity| |].
    + destruct (Z.to_nat n); reflexivity.
    + destruct (Z.to_nat n) as [|k]; [reflexivity|].
      exfalso. eapply Hfirst. reflexivity.
Qed.

(** A clip of two decoded images and a clip of two objects of another
    class both come back unchanged. *)
Lemma format_clip_passes_through_witness :
  let im := Decoded Mode_L 8 6 in
  PreprocTransform._format_clip (ClipList [PILImage im; PILImage im])
  = Ok (ClipList [PILImage im; PILImage im])
  /\ PreprocTransform._format_clip (ClipList [PyObject "str"; PyObject "str"])
     = Ok (ClipList [PyObject "str"; PyObject "str"]).
Proof.
  intros im. split.
  - apply (format_clip_passes_through (ClipList [PILImage im; PILImage im])).
    intros a. cbn. discriminate.
  - apply (format_clip_passes_through (ClipList [PyObject "str"; PyObject "str"])).
    intros a. cbn. discriminate.
Defined.

(** The numeric-array branch: [len(frame.size)] is taken of the element
    count of the first array, an integer. *)
Lemma format_clip_array_frames (a : ndarray) (frames : list frame) :
  PreprocTransform._format_clip (ClipList (NdArray a :: frames)) = Err TypeError.
Proof. reflexivity. Qed.

(** ** The units on concrete clips *)

(** C1, on the code.  The clip of four 100x100 frames with one box
    (10,10,50,50) per frame: Resize to (50,50) raises IndexError, the
    slot index running over the four frames of the box array; so does
    CenterCrop(20,20) on the four 50x50 frames with the box (5,5,25,25)
    each.  With one frame, where the slot loop stays in range, Resize
    gives (5,5,25,25), CenterCrop sets the rectangle x in [15,35], y in
    [15,35] and writes the sentinel: [crop_bbox] receives the box as
    (xmin, ymin, xmax, ymax) and reads it as (xmin, xmax, ymin, ymax). *)
Theorem end_to_end_example_on_code :
  let im := Decoded Mode_RGB 100 100 in
  let small := Resized im (50, 50) in
  let resize := ResizeClip.__init__ 50 50 in
  let center := CenterCropClip.__init__ 20 20 in
  ResizeClip.__call__ resize (clip_of (repeat im 4)) (repeat [(10, 10, 50, 50)] 4)
  = Err IndexError
  /\ fst (CenterCropClip.__call__ (clip_of (repeat small 4))
            (repeat [(5, 5, 25, 25)] 4) center)
     = Err IndexError
  /\ ResizeClip.__call__ resize (clip_of [im]) [[(10, 10, 50, 50)]]
     = Ok (ClipAndBoxes (clip_of [small]) [[(5, 5, 25, 25)]])
  /\ CenterCropClip.__call__ (clip_of [small]) [[(5, 5, 25, 25)]] center
     = (Ok (ClipAndBoxes (clip_of [Cropped small (15, 15, 35, 35)])
              [[(-1, -1, -1, -1)]]),
        CenterCropClip.mk 20 20 (CropClip.mk 15 35 15 35))
  /\ crop_bbox 5 25 5 25 15 35 15 35 = (15, 25, 15, 25).
Proof.
  cbv zeta. repeat split; vm_compute; reflexivity.
Qed.

(** C3, on the code.  A frame 100 wide and 50 high resized to height 50
    and width 200, so that x scales by 2 and y by 1: the box
    (10,20,30,40) comes out as (10,20,60,80), xmin scaled by the ratio
    of the heights and ymax by the ratio of the widths. *)
Theorem resize_scales_by_wrong_axis :
  let im := Decoded Mode_RGB 100 50 in
  ResizeClip.__call__ (ResizeClip.__init__ 50 200) (clip_of [im]) [[(10, 20, 30, 40)]]
  = Ok (ClipAndBoxes (clip_of [Resized im (200, 50)]) [[(10, 20, 60, 80)]]).
Proof.
  cbv zeta. vm_compute. reflexivity.
Qed.

(** C4, on the code.  A frame 100 wide and 50 high with the box
    (10,20,30,40): the horizontal flip subtracts from the height 50 and
    gives (20,20,40,40); the vertical flip raises NameError. *)
Theorem flip_boxes_on_code :
  let im := Decoded Mode_RGB 100 50 in
  let st := mk_state (fun _ => 7%N) 0 in
  RandomFlipClip._flip_data (RandomFlipClip.__init__ "h" (1 # 2))
    (clip_of [im]) [[(10, 20, 30, 40)]]
  = Ok (clip_of [Transposed im FLIP_LEFT_RIGHT], [[(20, 20, 40, 40)]])
  /\ fst (RandomFlipClip.__call__ (RandomFlipClip.__init__ "h" (1 # 2))
            (clip_of [im]) [[(10, 20, 30, 40)]] st)
     = Ok (ClipAndBoxes (clip_of [Transposed im FLIP_LEFT_RIGHT])
             [[(20, 20, 40, 40)]])
  /\ RandomFlipClip._flip_data (RandomFlipClip.__init__ "v" (1 # 2))
       (clip_of [im]) [[(10, 20, 30, 40)]]
     = Err NameError.
Proof.
  cbv zeta. repeat split; vm_compute; reflexivity.
Qed.

(** C6, on the code.  Two RGB frames 5 wide and 4 high stack to a
    float32 tensor of shape (2, 4, 5, 3): frame, height, width, channel.
    Two grayscale frames stack to (2, 4, 5). *)
Theorem to_tensor_is_channel_last :
  ToTensorClip.__call__ (clip_of (repeat (Decoded Mode_RGB 5 4) 2)) []
  = Ok (mk_tensor [2; 4; 5; 3] float32, [])
  /\ ToTensorClip.__call__ (clip_of (repeat (Decoded Mode_L 5 4) 2)) []
     = Ok (mk_tensor [2; 4; 5] float32, []).
Proof.
  split; vm_compute; reflexivity.
Qed.

(** ** Rotation of boxes *)

Lemma norm_factor (x y : R) :
  (x <> 0 -> sqrt (x ^ 2 + y ^ 2) = Rabs x * sqrt (1 + (y / x)²))%R.
Proof.
  intros Hx.
  replace (x ^ 2 + y ^ 2)%R with (x² * (1 + (y / x)²))%R
    by (unfold Rsqr; field; exact Hx).
  rewrite sqrt_mult_alt by apply Rle_0_sqr.
  rewrite sqrt_Rsqr_abs. reflexivity.
Qed.

Lemma sqrt_one_plus_sqr_pos (t : R) : (0 < sqrt (1 + t²))%R.
Proof.
  apply sqrt_lt_R0. pose proof (Rle_0_sqr t). lra.
Qed.

(** Polar form and back is the identity. *)
Lemma polar_round_trip (x y : R) :
  RandomRotateClip._pol2cart (RandomRotateClip._cart2pol (x, y)) = (x, y).
Proof.
  unfold RandomRotateClip._pol2cart, RandomRotateClip._cart2pol, np.arctan2.
  destruct (Rlt_dec 0 x) as [Hpos|Hnpos].
  - rewrite norm_factor by lra. rewrite cos_atan, sin_atan.
    rewrite Rabs_right by lra.
    pose proof (sqrt_one_plus_sqr_pos (y / x)) as Hs.
    f_equal; field; lra.
  - destruct (Rlt_dec x 0) as [Hneg|Hnneg].
    + rewrite norm_factor by lra. rewrite Rabs_left by lra.
      pose proof (sqrt_one_plus_sqr_pos (y / x)) as Hs.
      destruct (Rle_dec 0 y).
      * rewrite neg_cos, neg_sin, cos_atan, sin_atan. f_equal; field; lra.
      * rewrite cos_minus, sin_minus, cos_PI, sin_PI, cos_atan, sin_atan.
        f_equal; field; lra.
    + assert (x = 0)%R as -> by lra.
      replace (0 ^ 2 + y ^ 2)%R with (y²)%R by (unfold Rsqr; ring).
      rewrite sqrt_Rsqr_abs.
      destruct (Rlt_dec 0 y).
      * rewrite cos_PI2, sin_PI2, Rabs_right by lra. f_equal; ring.
      * destruct (Rlt_dec y 0).
        -- rewrite cos_neg, sin_neg, cos_PI2, sin_PI2, Rabs_left by lra.
           f_equal; ring.
        -- assert (y = 0)%R as -> by lra.
           rewrite Rabs_R0. f_equal; ring.
Qed.

(** Adding pi to the angle negates the point. *)
Lemma polar_half_turn (x y : R) :
  let p := RandomRotateClip._cart2pol (x, y) in
  RandomRotateClip._pol2cart (fst p, (snd p + PI)%R) = (- x, - y)%R.
Proof.
  intros p. pose proof (polar_round_trip x y) as H. fold p in H.
  destruct p as [rho phi]. cbn [fst snd].
  unfold RandomRotateClip._pol2cart in *.
  rewrite neg_cos, neg_sin. inversion H as [[Hx Hy]].
  rewrite Hx, Hy. f_equal; lra.
Qed.

Lemma int_R_IZR (z : Z) : int_R (IZR z) = z.
Proof.
  unfold int_R. destruct (Rle_dec 0 (IZR z)) as [H|H].
  - symmetry. apply Int_part_spec. lra.
  - rewrite <- opp_IZR.
    assert (E : - z = Int_part (IZR (- z))) by (apply Int_part_spec; lra).
    lia.
Qed.

Lemma Rmin_IZR (a b : Z) : Rmin (IZR a) (IZR b) = IZR (Z.min a b).
Proof.
  unfold Rmin. destruct (Rle_dec (IZR a) (IZR b)) as [H|H].
  - apply le_IZR in H. rewrite Z.min_l by exact H. reflexivity.
  - assert (b <= a) by (apply Z.lt_le_incl, lt_IZR; lra).
    rewrite Z.min_r by assumption. reflexivity.
Qed.

Lemma Rmax_IZR (a b : Z) : Rmax (IZR a) (IZR b) = IZR (Z.max a b).
Proof.
  unfold Rmax. destruct (Rle_dec (IZR a) (IZR b)) as [H|H].
  - apply le_IZR in H. rewrite Z.max_r by exact H. reflexivity.
  - assert (b <= a) by (apply Z.lt_le_incl, lt_IZR; lra).
    rewrite Z.max_l by assumption. reflexivity.
Qed.

Lemma deg2rad_180 : np.deg2rad 180 = PI.
Proof. unfold np.deg2rad. field. Qed.

(** A half turn about (half_w, half_h) of a box with integer corners,
    when the doubled centre is the integer point (cx, cy). *)
Lemma rotate_one_half_turn (half_w half_h : R) (cx cy : Z) (b : box) :
  (2 * half_w = IZR cx)%R -> (2 * half_h = IZR cy)%R ->
  RandomRotateClip.rotate_one half_w half_h PI b
  = let '(xmin, ymin, xmax, ymax) := b in
    (Z.min (cx - xmin) (cx - xmax), Z.min (cy - ymax) (cy - ymin),
     Z.max (cx - xmin) (cx - xmax), Z.max (cy - ymax) (cy - ymin)).
Proof.
  intros Hx Hy.
  assert (Tx : forall a : Z, (- (IZR a - half_w) + half_w)%R = IZR (cx - a))
    by (intros a; rewrite minus_IZR; lra).
  assert (Ty : forall a : Z, (- (IZR a - half_h) + half_h)%R = IZR (cy - a))
    by (intros a; rewrite minus_IZR; lra).
  destruct b as [[[xmin ymin] xmax] ymax].
  unfold RandomRotateClip.rotate_one.
  rewrite !polar_half_turn. cbn [fst snd]. rewrite !Tx, !Ty.
  unfold min4, max4. rewrite !Rmin_IZR, !Rmax_IZR, !int_R_IZR.
  repeat match goal with |- (_, _) = (_, _) => f_equal end; lia.
Qed.

(** C5, on the code.  A frame 100 wide and 50 high, the angle 180 and
    the box (10,10,50,40).  About the frame centre (50,25) the half turn
    of the box is (50,10,90,40); the code turns it about (25,50), half
    the height on x and half the width on y, and gives (0,60,40,90). *)
Theorem rotate_centre_swaps_axes :
  let im := Decoded Mode_RGB 100 50 in
  RandomRotateClip._rotate_bbox [(10, 10, 50, 40)] (Image.size im) 180
  = Ok [(0, 60, 40, 90)]
  /\ fst (RandomRotateClip.__call__ (RandomRotateClip.__init__ [180])
            (clip_of [im]) [[(10, 10, 50, 40)]] (mk_state (fun _ => 7%N) 0))
     = Ok (ClipAndBoxes (clip_of [Rotated im 180]) [[(0, 60, 40, 90)]]).
Proof.
  cbv zeta.
  assert (E : RandomRotateClip._rotate_bbox [(10, 10, 50, 40)] (100, 50) 180
              = Ok [(0, 60, 40, 90)]).
  { unfold RandomRotateClip._rotate_bbox.
    rewrite deg2rad_180.
    cbn [length range seq for_each getitem nth_error bind zeros_like repeat setitem].
    rewrite (rotate_one_half_turn _ _ 50 100) by lra.
    reflexivity. }
  split; [exact E|].
  unfold RandomRotateClip.__call__, bind_M, np_random.choice, next_draw, ret_M, lift.
  cbn -[RandomRotateClip._rotate_bbox]. rewrite E. reflexivity.
Qed.

(** ** What the code computes, for every input *)

(** Resize of a one-frame clip with one box, for every frame with
    pixels of PIL size (w, h), every positive size and every box
    (xmin, ymin, xmax, ymax).  In binary64 arithmetic the unit returns
    the row
    (int(xmin * (size_h / float(h))), int(ymin * (size_h / float(h))),
     int(xmax * (size_w / float(w))), int(ymax * (size_w / float(w))))
    and raises what one of these operations raises: xmin goes with the
    ratio of the heights and ymax with the ratio of the widths. *)
Theorem ResizeClip_single_box
  (self : ResizeClip.t) (im : image) (xmin ymin xmax ymax w h : Z) :
  Image.size im = (w, h) -> 0 < w -> 0 < h ->
  0 < ResizeClip.size_w self -> 0 < ResizeClip.size_h self ->
  ResizeClip.__call__ self (clip_of [im]) [[(xmin, ymin, xmax, ymax)]]
  = (ratio_w <- (d <- Float64.of_int w ;;
                 Float64.truediv (ResizeClip.size_w self) d) ;;
     ratio_h <- (d <- Float64.of_int h ;;
                 Float64.truediv (ResizeClip.size_h self) d) ;;
     a0 <- (x <- Float64.mul xmin ratio_h ;; Float64.to_int x) ;;
     a1 <- (x <- Float64.mul ymin ratio_h ;; Float64.to_int x) ;;
     a2 <- (x <- Float64.mul xmax ratio_w ;; Float64.to_int x) ;;
     a3 <- (x <- Float64.mul ymax ratio_w ;; Float64.to_int x) ;;
     Ok (ClipAndBoxes
           (clip_of [Resized im (ResizeClip.size_w self, ResizeClip.size_h self)])
           [[(a0, a1, a2, a3)]])).
Proof.
  intros Hsize Hw Hh Hsw Hsh. unfold ResizeClip.__call__.
  cbn [clip_of map PreprocTransform._format_clip clip_items getitem nth_error bind
       is_ndarray clip_len length range seq for_each as_image bbox_given].
  rewrite (resize_returns im _ _ Hsw Hsh). cbn [bind zeros_like length repeat].
  rewrite Hsize. unfold resize_bbox. cbn [fst snd].
  destruct (d <- Float64.of_int w ;; Float64.truediv (ResizeClip.size_w self) d)
    as [ratio_w|e]; [|reflexivity].
  cbn [bind].
  destruct (d <- Float64.of_int h ;; Float64.truediv (ResizeClip.size_h self) d)
    as [ratio_h|e]; [|reflexivity].
  cbn [bind].
  destruct (x <- Float64.mul xmin ratio_h ;; Float64.to_int x) as [a0|e];
    [|reflexivity].
  cbn [bind].
  destruct (x <- Float64.mul ymin ratio_h ;; Float64.to_int x) as [a1|e];
    [|reflexivity].
  cbn [bind].
  destruct (x <- Float64.mul xmax ratio_w ;; Float64.to_int x) as [a2|e];
    [|reflexivity].
  cbn [bind].
  destruct (x <- Float64.mul ymax ratio_w ;; Float64.to_int x) as [a3|e];
    reflexivity.
Qed.

Lemma ResizeClip_single_box_witness :
  ResizeClip.__call__ (ResizeClip.__init__ 112 112) (clip_of [Decoded Mode_L 320 320])
    [[(90, 180, 180, 270)]]
  = Ok (ClipAndBoxes (clip_of [Resized (Decoded Mode_L 320 320) (112, 112)])
          [[(31, 62, 62, 94)]]).
Proof.
  rewrite (ResizeClip_single_box (ResizeClip.__init__ 112 112) (Decoded Mode_L 320 320)
             90 180 180 270 320 320 eq_refl);
    [vm_compute; reflexivity|lia|lia|cbn; lia|cbn; lia].
Defined.

(** [_h_flip] on every row and every [frame_size]: each box is mirrored
    about the second entry of [frame_size], y unchanged. *)
Theorem h_flip_mirrors_about_second_extent (bbox : list box) (frame_size : Z * Z) :
  RandomFlipClip._h_flip bbox frame_size
  = Ok (map (fun b : box =>
               let '(xmin, ymin, xmax, ymax) := b in
               (snd frame_size - xmax, ymin, snd frame_size - xmin, ymax))
          bbox).
Proof.
  unfold RandomFlipClip._h_flip.
  erewrite slot_loop_ok with (row := bbox); [rewrite written_full; reflexivity| |lia].
  intros j temp b Hb. cbn beta.
  rewrite (getitem_some _ _ _ Hb). cbn [bind].
  destruct b as [[[xmin ymin] xmax] ymax]. reflexivity.
Qed.

(** [_v_flip] on every non-empty row raises NameError. *)
Theorem v_flip_raises_name_error (b : box) (rest : list box) (frame_size : Z * Z) :
  RandomFlipClip._v_flip (b :: rest) frame_size = Err NameError.
Proof.
  destruct b as [[[xmin ymin] xmax] ymax]. reflexivity.
Qed.

Lemma shape_eqb_refl (s : list Z) : PreprocTransform.shape_eqb s s = true.
Proof.
  unfold PreprocTransform.shape_eqb. rewrite Nat.eqb_refl. cbn [andb].
  induction s as [|z s IH]; cbn; [reflexivity|].
  rewrite Z.eqb_refl. exact IH.
Qed.

Lemma promote_same (d : dtype) : PreprocTransform.promote d d = d.
Proof. destruct d; reflexivity. Qed.

Lemma np_stack_repeat (a : ndarray) (n : nat) :
  PreprocTransform.np_stack (repeat a (S n))
  = Ok (mk_ndarray (Z.of_nat (S n) :: shape a) (elt a)).
Proof.
  unfold PreprocTransform.np_stack. cbn [repeat].
  assert (Hs : forallb (fun b => PreprocTransform.shape_eqb (shape a) (shape b))
                 (repeat a n) = true).
  { clear. induction n as [|n IH]; cbn; [reflexivity|].
    rewrite shape_eqb_refl. exact IH. }
  assert (Hd : fold_left PreprocTransform.promote (map elt (repeat a n)) (elt a)
               = elt a).
  { clear. induction n as [|n IH]; cbn; [reflexivity|].
    rewrite promote_same. exact IH. }
  rewrite Hs, Hd. cbn [length]. rewrite repeat_length. reflexivity.
Qed.

Lemma arrays_of_images (ims : list image) (acc : list ndarray) :
  for_each (map PILImage ims)
    (fun frame output_clip =>
       a <- PreprocTransform.np_array frame ;; Ok (output_clip ++ [a]))
    acc
  = Ok (acc ++ map array_of_image ims).
Proof.
  revert acc. induction ims as [|im ims IH]; intros acc; cbn.
  - rewrite app_nil_r. reflexivity.
  - rewrite IH, <- app_assoc. reflexivity.
Qed.

(** ToTensorClip on every clip of n >= 1 copies of an RGB image of size
    (W, H): a float32 tensor of shape (n, H, W, 3), the channel axis
    last. *)
Theorem ToTensorClip_rgb_shape (im : image) (n : nat) (W H : Z) :
  Image.mode_of im = Mode_RGB -> Image.size im = (W, H) ->
  ToTensorClip.__call__ (clip_of (repeat im (S n))) []
  = Ok (mk_tensor [Z.of_nat (S n); H; W; 3] float32, []).
Proof.
  intros Hmode Hsize.
  unfold ToTensorClip.__call__, PreprocTransform._format_clip_numpy, clip_of.
  cbn [repeat map getitem nth_error bind is_ndarray].
  change (PILImage im :: map PILImage (repeat im n))
    with (map PILImage (repeat im (S n))).
  rewrite arrays_of_images. cbn [app bind].
  rewrite map_repeat, np_stack_repeat. cbn [bind bbox_given].
  unfold ToTensorClip.from_numpy_float, array_of_image.
  rewrite Hmode, Hsize. reflexivity.
Qed.

Lemma ToTensorClip_rgb_shape_witness :
  ToTensorClip.__call__ (clip_of (repeat (Decoded Mode_RGB 7 3) 5)) []
  = Ok (mk_tensor [5; 3; 7; 3] float32, []).
Proof.
  apply (ToTensorClip_rgb_shape (Decoded Mode_RGB 7 3) 4 7 3); reflexivity.
Defined.

(** ** Clips of images without boxes *)

Lemma frame_loop_noboxes (ims : list image) (op : image -> image)
  (body : nat -> list frame * list (list box) -> result (list frame * list (list box))) :
  (forall i oc ob im,
      nth_error ims i = Some im ->
      body i (oc, ob) = Ok (oc ++ [PILImage (op im)], ob)) ->
  for_each (range (length ims)) body ([], [])
  = Ok (map (fun im => PILImage (op im)) ims, []).
Proof.
  intros Hbody.
  assert (G : forall n i oc,
             (i + n <= length ims)%nat ->
             for_each (seq i n) body (oc, [])
             = Ok (oc ++ map (fun im => PILImage (op im)) (firstn n (skipn i ims)), [])).
  { induction n as [|n IH]; intros i oc Hi; cbn.
    - rewrite app_nil_r. reflexivity.
    - destruct (nth_error_in_range ims i ltac:(lia)) as [im Him].
      rewrite (Hbody i oc [] im Him). cbn [bind]. rewrite IH by lia.
      rewrite (skipn_cons _ _ _ Him). cbn [firstn map].
      rewrite <- app_assoc. reflexivity. }
  unfold range. rewrite (G (length ims) 0%nat []) by lia.
  cbn [skipn app]. rewrite firstn_all. reflexivity.
Qed.

Lemma ResizeClip_images (self : ResizeClip.t) (ims : list image) :
  ims <> [] ->
  0 < ResizeClip.size_w self -> 0 < ResizeClip.size_h self ->
  ResizeClip.__call__ self (clip_of ims) []
  = Ok (ClipOnly (clip_of (map (fun im =>
          Resized im (ResizeClip.size_w self, ResizeClip.size_h self)) ims))).
Proof.
  intros Hims Hsw Hsh. unfold ResizeClip.__call__.
  rewrite (format_clip_images ims Hims). cbn [bind bbox_given].
  unfold clip_len. cbn [clip_items clip_of]. rewrite length_map.
  erewrite (frame_loop_noboxes ims
              (fun im => Resized im (ResizeClip.size_w self, ResizeClip.size_h self))).
  - cbn [bind]. unfold clip_of. rewrite map_map. reflexivity.
  - intros i oc ob im Him. cbn beta iota.
    change (map PILImage ims) with (clip_items (clip_of ims)).
    rewrite (nth_error_image _ _ _ Him). cbn [bind as_image].
    rewrite (resize_returns im _ _ Hsw Hsh). reflexivity.
Qed.

Lemma CropClip_images (self : CropClip.t) (ims : list image) :
  ims <> [] ->
  CropClip.bbox_xmin self <= CropClip.bbox_xmax self ->
  CropClip.bbox_ymin self <= CropClip.bbox_ymax self ->
  CropClip.__call__ self (clip_of ims) []
  = Ok (ClipOnly (clip_of (map (fun im =>
          Cropped im (CropClip.bbox_xmin self, CropClip.bbox_ymin self,
                      CropClip.bbox_xmax self, CropClip.bbox_ymax self)) ims))).
Proof.
  intros Hims Hwx Hwy. unfold CropClip.__call__.
  rewrite (format_clip_images ims Hims). cbn [bind bbox_given].
  unfold clip_len. cbn [clip_items clip_of]. rewrite length_map.
  erewrite (frame_loop_noboxes ims
              (fun im => Cropped im (CropClip.bbox_xmin self, CropClip.bbox_ymin self,
                                     CropClip.bbox_xmax self, CropClip.bbox_ymax self))).
  - cbn [bind]. unfold clip_of. rewrite map_map. reflexivity.
  - intros i oc ob im Him. cbn beta iota.
    change (map PILImage ims) with (clip_items (clip_of ims)).
    rewrite (nth_error_image _ _ _ Him). cbn [bind as_image].
    rewrite (crop_returns im _ _ _ _ Hwx Hwy). reflexivity.
Qed.

Lemma map_result_images (op : image -> image) (f : frame -> result frame)
  (ims : list image) :
  (forall im, f (PILImage im) = Ok (PILImage (op im))) ->
  map_result f (map PILImage ims) = Ok (map PILImage (map op ims)).
Proof.
  intros Hf. induction ims as [|im ims IH]; cbn; [reflexivity|].
  rewrite Hf, IH. reflexivity.
Qed.

Lemma flip_data_images (self : RandomFlipClip.t) (ims : list image) :
  RandomFlipClip.direction self = "h"%string
  \/ RandomFlipClip.direction self = "v"%string ->
  exists method,
    RandomFlipClip._flip_data self (clip_of ims) []
    = Ok (clip_of (map (fun im => Transposed im method) ims), []).
Proof.
  intros [Hd|Hd]; unfold RandomFlipClip._flip_data; rewrite Hd; cbn [String.eqb].
  - exists FLIP_LEFT_RIGHT.
    cbn [Ascii.eqb Bool.eqb iterate clip_of bind].
    rewrite (map_result_images (fun im => Transposed im FLIP_LEFT_RIGHT))
      by reflexivity.
    reflexivity.
  - exists FLIP_TOP_BOTTOM.
    cbn [Ascii.eqb Bool.eqb iterate clip_of bind].
    rewrite (map_result_images (fun im => Transposed im FLIP_TOP_BOTTOM))
      by reflexivity.
    reflexivity.
Qed.

(** ** [crop_bbox] applied again *)

Lemma sentinel_fixed (cxmin cxmax cymin cymax : Z) :
  crop_bbox (-1) (-1) (-1) (-1) cxmin cxmax cymin cymax = (-1, -1, -1, -1).
Proof.
  unfold crop_bbox.
  destruct (-1 >=? cxmax) eqn:E1; [reflexivity|].
  destruct (-1 <=? cxmin) eqn:E2; [reflexivity|].
  destruct (-1 >=? cymax) eqn:E3; [reflexivity|].
  destruct (-1 <=? cymin) eqn:E4; [reflexivity|].
  cbn [orb].
  destruct (-1 >? cymax) eqn:F1; [lia|].
  destruct (-1 >? cxmax) eqn:F2; [lia|].
  destruct (-1 <? cymin) eqn:F3; [lia|].
  destruct (-1 <? cxmin) eqn:F4; [lia|].
  reflexivity.
Qed.

(** The sentinel is a fixed point of [crop_bbox] for every rectangle,
    in the declared order of the parameters and as [CropClip.__call__]
    passes them: a box found outside one crop stays (-1,-1,-1,-1)
    through every later crop. *)
Theorem sentinel_stays_sentinel (cxmin cxmax cymin cymax : Z) :
  crop_bbox (-1) (-1) (-1) (-1) cxmin cxmax cymin cymax = (-1, -1, -1, -1)
  /\ crop_call (CropClip.__init__ cxmin cxmax cymin cymax) (-1, -1, -1, -1)
     = (-1, -1, -1, -1).
Proof.
  pose proof (sentinel_fixed cxmin cxmax cymin cymax) as E.
  split; [exact E|]. unfold crop_call, CropClip.__init__. cbn. exact E.
Qed.

(** Cropping the output of [crop_bbox] once more by the same rectangle,
    when the rectangle has a positive width and height, changes
    nothing. *)
Theorem crop_bbox_idempotent (xmin xmax ymin ymax cxmin cxmax cymin cymax : Z) :
  cxmin < cxmax -> cymin < cymax ->
  forall a b c d,
    crop_bbox xmin xmax ymin ymax cxmin cxmax cymin cymax = (a, b, c, d) ->
    crop_bbox a b c d cxmin cxmax cymin cymax = (a, b, c, d).
Proof.
  intros Hcx Hcy a b c d H.
  assert (Hdec : (xmin >= cxmax \/ xmax <= cxmin \/ ymin >= cymax \/ ymax <= cymin)
                 \/ ~ (xmin >= cxmax \/ xmax <= cxmin \/ ymin >= cymax \/ ymax <= cymin))
    by lia.
  destruct Hdec as [Hd|Ho].
  - rewrite (crop_bbox_disjoint _ _ _ _ _ _ _ _ Hd) in H. inversion H; subst.
    apply sentinel_fixed.
  - rewrite (crop_bbox_overlap _ _ _ _ _ _ _ _ Ho) in H. inversion H; subst.
    rewrite crop_bbox_overlap by lia.
    repeat match goal with |- (_, _) = (_, _) => f_equal end; lia.
Qed.

Lemma crop_bbox_idempotent_witness :
  crop_bbox 15 25 15 25 15 35 15 35 = (15, 25, 15, 25).
Proof.
  apply (crop_bbox_idempotent 5 25 5 25 15 35 15 35); [lia|lia|reflexivity].
Defined.

(** ** The window of [CenterCropClip] *)

Lemma py_int_half_diff (a b : Z) :
  py_int (inject_Z a / 2 - inject_Z b / 2)%Q = Z.quot (a - b) 2.
Proof.
  unfold py_int, Qdiv, Qminus, Qplus, Qopp, Qmult, Qinv, inject_Z. cbn [Qnum Qden].
  change (Z.pos (1 * 2 * (1 * 2))) with (2 * 2).
  replace (a * 1 * Z.pos (1 * 2) + - (b * 1) * Z.pos (1 * 2)) with ((a - b) * 2) by lia.
  apply Z.quot_mul_cancel_r; lia.
Qed.

Lemma py_int_half_sum (a b : Z) :
  py_int (inject_Z a / 2 + inject_Z b / 2)%Q = Z.quot (a + b) 2.
Proof.
  unfold py_int, Qdiv, Qplus, Qmult, Qinv, inject_Z. cbn [Qnum Qden].
  change (Z.pos (1 * 2 * (1 * 2))) with (2 * 2).
  replace (a * 1 * Z.pos (1 * 2) + b * 1 * Z.pos (1 * 2)) with ((a + b) * 2) by lia.
  apply Z.quot_mul_cancel_r; lia.
Qed.

Lemma calculate_center_value (self : CenterCropClip.t) (frame_w frame_h : Z) :
  CenterCropClip._calculate_center self frame_w frame_h
  = (Z.quot (frame_w - CenterCropClip.crop_w self) 2,
     Z.quot (frame_w + CenterCropClip.crop_w self) 2,
     Z.quot (frame_h - CenterCropClip.crop_h self) 2,
     Z.quot (frame_h + CenterCropClip.crop_h self) 2).
Proof.
  unfold CenterCropClip._calculate_center.
  rewrite !py_int_half_diff, !py_int_half_sum. reflexivity.
Qed.

Lemma centered_interval (f c : Z) :
  0 <= c <= f ->
  let lo := Z.quot (f - c) 2 in
  let hi := Z.quot (f + c) 2 in
  0 <= lo /\ hi = lo + c /\ hi <= f /\ f - hi - 1 <= lo <= f - hi.
Proof.
  intros H lo hi. subst lo hi.
  rewrite !Z.quot_div_nonneg by lia.
  replace (f + c) with (f - c + c * 2) by lia.
  rewrite Z.div_add by lia.
  pose proof (Z.mul_div_le (f - c) 2 ltac:(lia)).
  pose proof (Z.mul_succ_div_gt (f - c) 2 ltac:(lia)).
  lia.
Qed.

(** CenterCrop on a clip whose first frame is W wide and H high, with
    0 <= crop_w <= W and 0 <= crop_h <= H: the window has exactly the
    requested width and height, lies in the first frame and is centred
    (the margins on the two sides differ by at most one pixel); the
    call is the call of Crop with that window on the whole clip, and
    when it returns every frame has been cropped by it. *)
Theorem CenterCrop_window
  (self : CenterCropClip.t) (im : image) (rest : list frame) (bbox : boxset) (W H : Z) :
  Image.size im = (W, H) ->
  0 <= CenterCropClip.crop_w self <= W ->
  0 <= CenterCropClip.crop_h self <= H ->
  let clip := ClipList (PILImage im :: rest) in
  let crop_w := CenterCropClip.crop_w self in
  let crop_h := CenterCropClip.crop_h self in
  exists xmin ymin,
    let xmax := xmin + crop_w in
    let ymax := ymin + crop_h in
    let window := CropClip.mk xmin xmax ymin ymax in
    0 <= xmin /\ xmax <= W /\ W - xmax - 1 <= xmin <= W - xmax
    /\ 0 <= ymin /\ ymax <= H /\ H - ymax - 1 <= ymin <= H - ymax
    /\ CenterCropClip.__call__ clip bbox self
       = (CropClip.__call__ window clip bbox, CenterCropClip.mk crop_w crop_h window)
    /\ (forall r, CropClip.__call__ window clip bbox = Ok r ->
        exists ims,
          PILImage im :: rest = map PILImage ims
          /\ ret_clip r
             = clip_of (map (fun f => Cropped f (xmin, ymin, xmax, ymax)) ims)).
Proof.
  intros Hsize Hw Hh clip crop_w crop_h.
  destruct (centered_interval W crop_w Hw) as (Hx0 & Hx1 & Hx2 & Hx3).
  destruct (centered_interval H crop_h Hh) as (Hy0 & Hy1 & Hy2 & Hy3).
  exists (Z.quot (W - crop_w) 2), (Z.quot (H - crop_h) 2). cbn zeta.
  rewrite <- Hx1, <- Hy1.
  split; [exact Hx0|]. split; [exact Hx2|]. split; [exact Hx3|].
  split; [exact Hy0|]. split; [exact Hy2|]. split; [exact Hy3|]. split.
  - unfold CenterCropClip.__call__, bind_M, lift.
    change (PreprocTransform._format_clip clip) with (Ok clip).
    cbn [clip_items clip getitem nth_error bind as_image].
    rewrite Hsize. cbn [fst snd]. rewrite calculate_center_value.
    reflexivity.
  - intros r Hr. apply CropClip_frames in Hr. exact Hr.
Qed.

Lemma CenterCrop_window_witness :
  let im := Decoded Mode_RGB 51 40 in
  exists xmin ymin,
    0 <= xmin /\ xmin + 20 <= 51 /\ 51 - (xmin + 20) - 1 <= xmin <= 51 - (xmin + 20)
    /\ 0 <= ymin /\ ymin + 16 <= 40 /\ 40 - (ymin + 16) - 1 <= ymin <= 40 - (ymin + 16)
    /\ CenterCropClip.__call__ (clip_of [im; im]) [] (CenterCropClip.__init__ 20 16)
       = (Ok (ClipOnly
                (clip_of (repeat (Cropped im (xmin, ymin, xmin + 20, ymin + 16)) 2))),
          CenterCropClip.mk 20 16 (CropClip.mk xmin (xmin + 20) ymin (ymin + 16))).
Proof.
  intros im.
  destruct (CenterCrop_window (CenterCropClip.__init__ 20 16) im [PILImage im] []
              51 40 eq_refl ltac:(cbn; lia) ltac:(cbn; lia))
    as (xmin & ymin & H0 & H1 & H2 & H3 & H4 & H5 & Hcall & _).
  exists xmin, ymin. cbn in H1, H2, H4, H5.
  repeat (split; [assumption|]).
  cbn zeta in Hcall. unfold clip_of. cbn [map]. rewrite Hcall.
  change (ClipList [PILImage im; PILImage im]) with (clip_of [im; im]).
  rewrite CropClip_images; [reflexivity|discriminate|cbn; lia|cbn; lia].
Defined.

(** ** [RandomFlipClip]: the flip of boxes, and the two ends of [p] *)

Lemma h_flip_value (bbox : list box) (frame_size : Z * Z) :
  RandomFlipClip._h_flip bbox frame_size
  = Ok (map (fun b : box =>
               let '(xmin, ymin, xmax, ymax) := b in
               (snd frame_size - xmax, ymin, snd frame_size - xmin, ymax))
          bbox).
Proof.
  unfold RandomFlipClip._h_flip.
  erewrite slot_loop_ok with (row := bbox); [rewrite written_full; reflexivity| |lia].
  intros j temp b Hb. cbn beta.
  rewrite (getitem_some _ _ _ Hb). cbn [bind].
  destruct b as [[[xmin ymin] xmax] ymax]. reflexivity.
Qed.

(** [_h_flip] is its own inverse for a fixed [frame_size]: it returns
    on every row, flipping the flipped row gives the row back, the row
    keeps its length, and boxes with xmin <= xmax and ymin <= ymax are
    mapped to such boxes. *)
Theorem h_flip_involution (bbox : list box) (frame_size : Z * Z) :
  exists flipped,
    RandomFlipClip._h_flip bbox frame_size = Ok flipped
    /\ RandomFlipClip._h_flip flipped frame_size = Ok bbox
    /\ length flipped = length bbox
    /\ (Forall ordered bbox -> Forall ordered flipped).
Proof.
  rewrite h_flip_value. eexists. split; [reflexivity|].
  rewrite h_flip_value, map_map, length_map. repeat split.
  - f_equal. rewrite <- (map_id bbox) at 2. apply map_ext.
    intros [[[xmin ymin] xmax] ymax]. cbn.
    repeat match goal with |- (_, _) = (_, _) => f_equal end; lia.
  - intros H. apply Forall_map. revert H. apply Forall_impl.
    intros [[[xmin ymin] xmax] ymax]. unfold ordered. cbn. lia.
Qed.

Lemma random_flip_decision (self : RandomFlipClip.t) (st : np_random_state) :
  let st' := mk_state (draws st) (S (cursor st)) in
  ((RandomFlipClip.p self <= 0)%Q -> RandomFlipClip._random_flip self st = (Ok false, st'))
  /\ ((1 <= RandomFlipClip.p self)%Q
      -> RandomFlipClip._random_flip self st = (Ok true, st')).
Proof.
  cbn zeta.
  unfold RandomFlipClip._random_flip, np_random.random, bind_M, next_draw, ret_M.
  set (r := Z.of_N (draws st (cursor st)) mod 2 ^ 53).
  assert (Hr : 0 <= r < 2 ^ 53) by (apply Z.mod_pos_bound; lia).
  assert (H0 : (0 <= Qmake r (2 ^ 53))%Q) by (unfold Qle; cbn; lia).
  assert (H1 : (Qmake r (2 ^ 53) < 1)%Q).
  { unfold Qlt. cbn [Qnum Qden]. change (Z.pos (2 ^ 53)) with (2 ^ 53). lia. }
  split; intros Hp.
  - assert (E : Qle_bool (RandomFlipClip.p self) (Qmake r (2 ^ 53)) = true)
      by (apply Qle_bool_iff; eapply Qle_trans; eassumption).
    rewrite E. reflexivity.
  - destruct (Qle_bool (RandomFlipClip.p self) (Qmake r (2 ^ 53))) eqn:E; [|reflexivity].
    apply Qle_bool_iff in E. exfalso.
    apply (Qlt_irrefl 1). eapply Qle_lt_trans; [exact Hp|].
    eapply Qle_lt_trans; eassumption.
Qed.

(** With p <= 0 the unit never flips: on every clip the adapter
    accepts, for every draw of the generator and every [direction]
    (also one that is neither 'h' nor 'v'), the call returns the
    adapted clip and the given boxes unchanged, after one draw. *)
Theorem RandomFlip_p_zero_keeps_input
  (self : RandomFlipClip.t) (clip clip' : pyclip) (bbox : boxset)
  (st : np_random_state) :
  (RandomFlipClip.p self <= 0)%Q ->
  PreprocTransform._format_clip clip = Ok clip' ->
  RandomFlipClip.__call__ self clip bbox st
  = (Ok (if bbox_given bbox then ClipAndBoxes clip' bbox else ClipOnly clip'),
     mk_state (draws st) (S (cursor st))).
Proof.
  intros Hp Hf.
  destruct (random_flip_decision self st) as [Hflip _]. specialize (Hflip Hp).
  unfold RandomFlipClip.__call__, bind_M, lift. rewrite Hf, Hflip.
  cbn [fst snd]. destruct (bbox_given bbox); reflexivity.
Qed.

Lemma RandomFlip_p_zero_keeps_input_witness :
  let clip := clip_of [Decoded Mode_RGB 8 6] in
  RandomFlipClip.__call__ (RandomFlipClip.__init__ "sideways" 0) clip [[(1, 2, 3, 4)]]
    (mk_state (fun n => N.of_nat (5 * n)) 3)
  = (Ok (ClipAndBoxes clip [[(1, 2, 3, 4)]]), mk_state (fun n => N.of_nat (5 * n)) 4).
Proof.
  intros clip.
  apply (RandomFlip_p_zero_keeps_input (RandomFlipClip.__init__ "sideways" 0)
           clip clip [[(1, 2, 3, 4)]] (mk_state (fun n => N.of_nat (5 * n)) 3)).
  - unfold Qle; cbn; lia.
  - reflexivity.
Defined.

Lemma h_flip_rows (output_clip : list frame) (first : image) (rest : list frame)
  (bbox : boxset) :
  output_clip = PILImage first :: rest ->
  map_result
    (fun curr_bbox =>
       first <- getitem output_clip 0 ;;
       im <- as_image first ;;
       RandomFlipClip._h_flip curr_bbox (Image.size im))
    bbox
  = Ok (map (map (fun b : box =>
                    let '(xmin, ymin, xmax, ymax) := b in
                    (snd (Image.size first) - xmax, ymin,
                     snd (Image.size first) - xmin, ymax)))
          bbox).
Proof.
  intros ->. induction bbox as [|row bbox IH]; [reflexivity|].
  cbn [map_result map getitem nth_error bind as_image].
  rewrite h_flip_value. cbn [bind].
  cbn [getitem nth_error bind as_image] in IH. rewrite IH. reflexivity.
Qed.

(** With 1 <= p and the direction 'h' the unit always flips: for every
    draw of the generator, every clip of images with a first frame and
    every box array, each frame is transposed left to right and each
    box is mirrored about the second entry of the first frame's PIL
    size, its height: (xmin, ymin, xmax, ymax) becomes
    (height - xmax, ymin, height - xmin, ymax). *)
Theorem RandomFlip_p_one_flips
  (self : RandomFlipClip.t) (im : image) (rest : list image) (bbox : boxset)
  (st : np_random_state) :
  (1 <= RandomFlipClip.p self)%Q ->
  RandomFlipClip.direction self = "h"%string ->
  let ims := im :: rest in
  let height := snd (Image.size im) in
  let flipped := clip_of (map (fun f => Transposed f FLIP_LEFT_RIGHT) ims) in
  let mirrored :=
    map (map (fun b : box =>
                let '(xmin, ymin, xmax, ymax) := b in
                (height - xmax, ymin, height - xmin, ymax))) bbox in
  RandomFlipClip.__call__ self (clip_of ims) bbox st
  = (Ok (if bbox_given bbox then ClipAndBoxes flipped mirrored else ClipOnly flipped),
     mk_state (draws st) (S (cursor st))).
Proof.
  intros Hp Hd ims height flipped mirrored.
  destruct (random_flip_decision self st) as [_ Hflip]. specialize (Hflip Hp).
  unfold RandomFlipClip.__call__, bind_M, lift.
  change (PreprocTransform._format_clip (clip_of ims)) with (Ok (clip_of ims)).
  rewrite Hflip. unfold RandomFlipClip._flip_data. rewrite Hd.
  change (String.eqb "h" "h") with true. cbn iota.
  unfold clip_of at 1. cbn [iterate bind].
  rewrite (map_result_images (fun f => Transposed f FLIP_LEFT_RIGHT)) by reflexivity.
  cbn [bind].
  destruct (bbox_given bbox) eqn:Hb.
  - subst ims. cbn [map].
    erewrite h_flip_rows by reflexivity. reflexivity.
  - reflexivity.
Qed.

Lemma RandomFlip_p_one_flips_witness :
  let im := Decoded Mode_RGB 100 50 in
  RandomFlipClip.__call__ (RandomFlipClip.__init__ "h" 1) (clip_of [im; im])
    [[(10, 20, 30, 40)]; [(0, 0, 100, 50)]] (mk_state (fun _ => 0%N) 0)
  = (Ok (ClipAndBoxes (clip_of (repeat (Transposed im FLIP_LEFT_RIGHT) 2))
           [[(20, 20, 40, 40)]; [(-50, 0, 50, 50)]]),
     mk_state (fun _ => 0%N) 1).
Proof.
  intros im.
  apply (RandomFlip_p_one_flips (RandomFlipClip.__init__ "h" 1) im [im]
           [[(10, 20, 30, 40)]; [(0, 0, 100, 50)]] (mk_state (fun _ => 0%N) 0)).
  - unfold Qle; cbn; lia.
  - reflexivity.
Defined.

(** A [direction] that is neither 'h' nor 'v' is found only when the
    unit flips: [_flip_data] then raises UnboundLocalError on every
    clip and every box array, and with 1 <= p so does every call on a
    clip the adapter accepts. *)
Theorem RandomFlip_unknown_direction
  (self : RandomFlipClip.t) (clip clip' : pyclip) (bbox : boxset)
  (st : np_random_state) :
  String.eqb (RandomFlipClip.direction self) "h" = false ->
  String.eqb (RandomFlipClip.direction self) "v" = false ->
  RandomFlipClip._flip_data self clip bbox = Err UnboundLocalError
  /\ ((1 <= RandomFlipClip.p self)%Q ->
      PreprocTransform._format_clip clip = Ok clip' ->
      RandomFlipClip.__call__ self clip bbox st
      = (Err UnboundLocalError, mk_state (draws st) (S (cursor st)))).
Proof.
  intros Hh Hv.
  assert (E : forall c, RandomFlipClip._flip_data self c bbox = Err UnboundLocalError).
  { intros c. unfold RandomFlipClip._flip_data. rewrite Hh, Hv. reflexivity. }
  split; [apply E|].
  intros Hp Hf.
  destruct (random_flip_decision self st) as [_ Hflip]. specialize (Hflip Hp).
  unfold RandomFlipClip.__call__, bind_M, lift. rewrite Hf, Hflip, E. reflexivity.
Qed.

Lemma RandomFlip_unknown_direction_witness :
  let self := RandomFlipClip.__init__ "horizontal" 1 in
  let clip := clip_of [Decoded Mode_L 4 4] in
  RandomFlipClip._flip_data self clip [] = Err UnboundLocalError
  /\ RandomFlipClip.__call__ self clip [] (mk_state (fun _ => 9%N) 0)
     = (Err UnboundLocalError, mk_state (fun _ => 9%N) 1).
Proof.
  intros self clip.
  destruct (RandomFlip_unknown_direction self clip clip [] (mk_state (fun _ => 9%N) 0)
              eq_refl eq_refl) as [H1 H2].
  split; [exact H1|]. apply H2; [unfold Qle; cbn; lia|reflexivity].
Defined.

Lemma v_flip_rows (output_clip : list frame) (first : image) (rest : list frame)
  (bbox : boxset) :
  output_clip = PILImage first :: rest ->
  Exists (fun row => row <> []) bbox ->
  map_result
    (fun curr_bbox =>
       first <- getitem output_clip 0 ;;
       im <- as_image first ;;
       RandomFlipClip._v_flip curr_bbox (Image.size im))
    bbox
  = Err NameError.
Proof.
  intros -> H. induction bbox as [|row bbox IH]; [inversion H|].
  cbn [map_result getitem nth_error bind as_image].
  destruct row as [|b row].
  - cbn [RandomFlipClip._v_flip length range seq for_each bind].
    cbn [getitem nth_error bind as_image] in IH. rewrite IH; [reflexivity|].
    inversion H as [? ? Hne|]; [contradiction|assumption].
  - destruct b as [[[xmin ymin] xmax] ymax]. reflexivity.
Qed.

(** The vertical flip returns no boxes: with the direction 'v', a clip
    of images with a first frame and a box array holding at least one
    box, [_flip_data] raises NameError, and with 1 <= p so does every
    call.  Without boxes the same call returns the frames transposed
    top to bottom. *)
Theorem RandomFlip_vertical_with_boxes
  (self : RandomFlipClip.t) (im : image) (rest : list image) (bbox : boxset)
  (st : np_random_state) :
  RandomFlipClip.direction self = "v"%string ->
  Exists (fun row => row <> []) bbox ->
  let ims := im :: rest in
  let st' := mk_state (draws st) (S (cursor st)) in
  RandomFlipClip._flip_data self (clip_of ims) bbox = Err NameError
  /\ RandomFlipClip._flip_data self (clip_of ims) []
     = Ok (clip_of (map (fun f => Transposed f FLIP_TOP_BOTTOM) ims), [])
  /\ ((1 <= RandomFlipClip.p self)%Q ->
      RandomFlipClip.__call__ self (clip_of ims) bbox st = (Err NameError, st')
      /\ RandomFlipClip.__call__ self (clip_of ims) [] st
         = (Ok (ClipOnly (clip_of (map (fun f => Transposed f FLIP_TOP_BOTTOM) ims))),
            st')).
Proof.
  intros Hd Hex ims st'.
  assert (Hb : bbox_given bbox = true) by (destruct Hex; reflexivity).
  assert (E1 : RandomFlipClip._flip_data self (clip_of ims) bbox = Err NameError).
  { unfold RandomFlipClip._flip_data. rewrite Hd.
    change (String.eqb "v" "h") with false. change (String.eqb "v" "v") with true.
    cbn iota. unfold clip_of at 1. cbn [iterate bind].
    rewrite (map_result_images (fun f => Transposed f FLIP_TOP_BOTTOM)) by reflexivity.
    cbn [bind]. rewrite Hb. subst ims. cbn [map].
    erewrite v_flip_rows; [reflexivity|reflexivity|exact Hex]. }
  assert (E2 : RandomFlipClip._flip_data self (clip_of ims) []
               = Ok (clip_of (map (fun f => Transposed f FLIP_TOP_BOTTOM) ims), [])).
  { unfold RandomFlipClip._flip_data. rewrite Hd.
    change (String.eqb "v" "h") with false. change (String.eqb "v" "v") with true.
    cbn iota. unfold clip_of at 1. cbn [iterate bind].
    rewrite (map_result_images (fun f => Transposed f FLIP_TOP_BOTTOM)) by reflexivity.
    reflexivity. }
  split; [exact E1|]. split; [exact E2|].
  intros Hp.
  destruct (random_flip_decision self st) as [_ Hflip]. specialize (Hflip Hp).
  unfold RandomFlipClip.__call__, bind_M, lift.
  change (PreprocTransform._format_clip (clip_of ims)) with (Ok (clip_of ims)).
  rewrite Hflip, E1, E2. split; reflexivity.
Qed.

Lemma RandomFlip_vertical_with_boxes_witness :
  let self := RandomFlipClip.__init__ "v" 1 in
  let im := Decoded Mode_RGB 100 50 in
  let st := mk_state (fun _ => 3%N) 0 in
  RandomFlipClip.__call__ self (clip_of [im]) [[]; [(10, 20, 30, 40)]] st
  = (Err NameError, mk_state (fun _ => 3%N) 1)
  /\ RandomFlipClip.__call__ self (clip_of [im]) [] st
     = (Ok (ClipOnly (clip_of [Transposed im FLIP_TOP_BOTTOM])),
        mk_state (fun _ => 3%N) 1).
Proof.
  intros self im st.
  destruct (RandomFlip_vertical_with_boxes self im [] [[]; [(10, 20, 30, 40)]] st
              eq_refl) as (_ & _ & H).
  - apply Exists_cons_tl, Exists_cons_hd. discriminate.
  - apply H. unfold Qle; cbn; lia.
Defined.

(** ** [RandomRotateClip]: one angle for the whole clip *)







(** ** [ApplyToClip] *)

Lemma append_loop {A B : Type} (g : A -> result B) (l : list A) (acc : list B) :
  for_each l (fun x out => y <- g x ;; Ok (out ++ [y])) acc
  = (ys <- map_result g l ;; Ok (acc ++ ys)).
Proof.
  revert acc. induction l as [|x l IH]; intros acc; cbn [for_each map_result bind].
  - rewrite app_nil_r. reflexivity.
  - destruct (g x) as [y|e]; [|reflexivity]. cbn [bind]. rewrite IH.
    destruct (map_result g l) as [ys|e]; [|reflexivity].
    cbn [bind]. rewrite <- app_assoc. reflexivity.
Qed.

Lemma map_result_total {A B : Type} (g : A -> result B) (h : A -> B) (l : list A) :
  (forall x, In x l -> g x = Ok (h x)) -> map_result g l = Ok (map h l).
Proof.
  induction l as [|x l IH]; intros H; cbn [map_result map]; [reflexivity|].
  rewrite (H x (or_introl eq_refl)), IH by (intros y Hy; apply H; right; exact Hy).
  reflexivity.
Qed.

(** ApplyToClip with a frame operator that returns on every frame of
    the clip: the output is the operator applied to each frame in
    order, the boxes are returned exactly as given whatever the
    operator does to the frames, and no adapter is called, so the empty
    list and frames that are not images are accepted. *)
Theorem ApplyToClip_maps_frames_keeps_boxes
  (self : ApplyToClip.t) (op : frame -> frame) (frames : list frame) (bbox : boxset) :
  (forall f, In f frames -> ApplyToClip.transform self f = Ok (op f)) ->
  ApplyToClip.__call__ self (ClipList frames) bbox
  = Ok (if bbox_given bbox then ClipAndBoxes (ClipList (map op frames)) bbox
        else ClipOnly (ClipList (map op frames))).
Proof.
  intros Hop. unfold ApplyToClip.__call__. cbn [iterate bind].
  rewrite append_loop, (map_result_total _ op) by exact Hop.
  cbn [bind app]. destruct (bbox_given bbox); reflexivity.
Qed.

Lemma ApplyToClip_maps_frames_keeps_boxes_witness :
  let im := Decoded Mode_RGB 100 50 in
  let half f :=
    match f with
    | PILImage i => PILImage (Resized i (50, 25))
    | other => other
    end in
  ApplyToClip.__call__ (ApplyToClip.__init__ (fun f => Ok (half f)))
    (ClipList [PILImage im; PyObject "str"]) [[(10, 20, 30, 40)]]
  = Ok (ClipAndBoxes (ClipList [PILImage (Resized im (50, 25)); PyObject "str"])
          [[(10, 20, 30, 40)]]).
Proof.
  intros im half.
  apply (ApplyToClip_maps_frames_keeps_boxes
           (ApplyToClip.__init__ (fun f => Ok (half f))) half
           [PILImage im; PyObject "str"] [[(10, 20, 30, 40)]]).
  intros f _. reflexivity.
Defined.

(** When the operator raises on some frame, ApplyToClip raises the
    error of the first such frame, and the frames after it are not
    passed to the operator. *)
Theorem ApplyToClip_first_error
  (self : ApplyToClip.t) (op : frame -> frame) (before after : list frame)
  (bad : frame) (e : exn) (bbox : boxset) :
  (forall f, In f before -> ApplyToClip.transform self f = Ok (op f)) ->
  ApplyToClip.transform self bad = Err e ->
  ApplyToClip.__call__ self (ClipList (before ++ bad :: after)) bbox = Err e.
Proof.
  intros Hop Hbad. unfold ApplyToClip.__call__. cbn [iterate bind].
  rewrite for_each_app, append_loop, (map_result_total _ op) by exact Hop.
  cbn [bind for_each]. rewrite Hbad. reflexivity.
Qed.

Lemma ApplyToClip_first_error_witness :
  let im := Decoded Mode_L 8 8 in
  ApplyToClip.__call__ (ApplyToClip.__init__ (RandomFlipClip.transpose FLIP_LEFT_RIGHT))
    (ClipList [PILImage im; PyObject "str"; PyObject "int"]) []
  = Err AttributeError.
Proof.
  intros im.
  apply (ApplyToClip_first_error
           (ApplyToClip.__init__ (RandomFlipClip.transpose FLIP_LEFT_RIGHT))
           (fun f => match f with
                     | PILImage i => PILImage (Transposed i FLIP_LEFT_RIGHT)
                     | other => other
                     end)
           [PILImage im] [PyObject "int"] (PyObject "str") AttributeError []).
  - intros f [<-|[]]. reflexivity.
  - reflexivity.
Defined.

(** ** The empty clip *)

(** Every unit that adapts its clip with [_format_clip] or
    [_format_clip_numpy] reads [clip[0]] first: on the empty list
    Resize, Crop, RandomCrop, CenterCrop, RandomFlip and ToTensor raise
    IndexError, for every setting and every box array, before any
    field of [self] is written and before any number is drawn.
    RandomRotate and ApplyToClip have no adapter: RandomRotate without
    boxes returns the empty clip after its draw, and with boxes raises
    IndexError at [clip[0].size]; ApplyToClip returns the empty clip
    and the boxes as given. *)
Theorem empty_clip_behaviour (bbox : boxset) :
  (forall self, ResizeClip.__call__ self (ClipList []) bbox = Err IndexError)
  /\ (forall self, CropClip.__call__ self (ClipList []) bbox = Err IndexError)
  /\ (forall s, RandomCropClip.__call__ (ClipList []) bbox s = (Err IndexError, s))
  /\ (forall self,
        CenterCropClip.__call__ (ClipList []) bbox self = (Err IndexError, self))
  /\ (forall self st,
        RandomFlipClip.__call__ self (ClipList []) bbox st = (Err IndexError, st))
  /\ ToTensorClip.__call__ (ClipList []) bbox = Err IndexError
  /\ (forall self a rest st,
        RandomRotateClip.angles self = a :: rest ->
        exists st',
          RandomRotateClip.__call__ self (ClipList []) bbox st
          = (if bbox_given bbox then Err IndexError else Ok (ClipOnly (ClipList [])),
             st')
          /\ cursor st' = S (cursor st))
  /\ (forall self,
        ApplyToClip.__call__ self (ClipList []) bbox
        = Ok (if bbox_given bbox then ClipAndBoxes (ClipList []) bbox
              else ClipOnly (ClipList []))).
Proof.
  repeat split; try reflexivity.
  - intros self a rest st Ha.
    unfold RandomRotateClip.__call__, bind_M, np_random.choice, next_draw, ret_M, lift.
    rewrite Ha. cbn [iterate bind map_result fst snd].
    destruct bbox as [|row bbox]; cbn [bbox_given].
    + eexists. split; reflexivity.
    + cbn [length range seq for_each getitem nth_error bind clip_items].
      eexists. split; reflexivity.
  - intros self. cbn. destruct (bbox_given bbox); reflexivity.
Qed.

(** ** [ResizeClip] followed by [ToTensorClip] *)

Lemma np_stack_same (a : ndarray) (arrays : list ndarray) :
  arrays <> [] -> Forall (eq a) arrays ->
  PreprocTransform.np_stack arrays
  = Ok (mk_ndarray (Z.of_nat (length arrays) :: shape a) (elt a)).
Proof.
  intros Hne Hall.
  assert (E : arrays = repeat a (length arrays)).
  { clear Hne. induction Hall as [|b l Hb _ IH]; [reflexivity|].
    cbn [length repeat]. rewrite <- Hb, <- IH. reflexivity. }
  destruct arrays as [|b l]; [contradiction|].
  rewrite E. cbn [length]. rewrite repeat_length. apply np_stack_repeat.
Qed.

Lemma resized_size (im : image) (w h : Z) :
  0 < w -> 0 < h -> Image.size (Resized im (w, h)) = (w, h).
Proof.
  intros Hw Hh. cbn [Image.size]. rewrite !Z.max_r by lia. reflexivity.
Qed.

(** Resize to a positive size and then ToTensor, on every clip of RGB
    images with pixels and a first frame, whatever the sizes of the
    frames: Resize returns a list of frames that all have the size
    (size_w, size_h), and ToTensor of it returns a float32 tensor of
    shape (frames, size_h, size_w, 3). *)
Theorem Resize_then_ToTensor (self : ResizeClip.t) (ims : list image) :
  ims <> [] ->
  Forall has_extent ims ->
  Forall (fun im => Image.mode_of im = Mode_RGB) ims ->
  0 < ResizeClip.size_w self -> 0 < ResizeClip.size_h self ->
  exists resized,
    ResizeClip.__call__ self (clip_of ims) [] = Ok (ClipOnly (ClipList resized))
    /\ Forall (image_of_size (ResizeClip.size_w self, ResizeClip.size_h self)) resized
    /\ ToTensorClip.__call__ (ClipList resized) []
       = Ok (mk_tensor [Z.of_nat (length ims); ResizeClip.size_h self;
                        ResizeClip.size_w self; 3] float32, []).
Proof.
  intros Hne _ Hrgb Hsw Hsh.
  set (sz := (ResizeClip.size_w self, ResizeClip.size_h self)).
  exists (map PILImage (map (fun im => Resized im sz) ims)).
  split; [rewrite (ResizeClip_images self ims Hne Hsw Hsh); reflexivity|]. split.
  - rewrite map_map. apply Forall_map, Forall_forall. intros im _.
    exists (Resized im sz). split; [reflexivity|]. apply resized_size; assumption.
  - unfold ToTensorClip.__call__, PreprocTransform._format_clip_numpy.
    destruct ims as [|im ims]; [contradiction|].
    cbn [map getitem nth_error bind is_ndarray].
    change (PILImage (Resized im sz) :: map PILImage (map (fun im => Resized im sz) ims))
      with (map PILImage (map (fun im => Resized im sz) (im :: ims))).
    rewrite arrays_of_images. cbn [app bind].
    rewrite (np_stack_same (mk_ndarray [ResizeClip.size_h self; ResizeClip.size_w self; 3]
                              uint8)).
    + rewrite !length_map. reflexivity.
    + discriminate.
    + rewrite map_map. apply Forall_map. revert Hrgb. apply Forall_impl.
      intros i Hi. unfold array_of_image. subst sz.
      rewrite (resized_size i _ _ Hsw Hsh). cbn [Image.mode_of].
      rewrite Hi. reflexivity.
Qed.

Lemma Resize_then_ToTensor_witness :
  exists resized,
    ResizeClip.__call__ (ResizeClip.__init__ 112 128)
      (clip_of [Decoded Mode_RGB 640 480; Decoded Mode_RGB 320 200]) []
    = Ok (ClipOnly (ClipList resized))
    /\ ToTensorClip.__call__ (ClipList resized) []
       = Ok (mk_tensor [2; 112; 128; 3] float32, []).
Proof.
  destruct (Resize_then_ToTensor (ResizeClip.__init__ 112 128)
              [Decoded Mode_RGB 640 480; Decoded Mode_RGB 320 200])
    as (resized & H1 & _ & H2).
  - discriminate.
  - repeat constructor.
  - repeat constructor.
  - cbn. lia.
  - cbn. lia.
  - exists resized. split; [exact H1|exact H2].
Defined.

(** ** Sequences of units on clips of images *)

Lemma centered_window_positive (f c : Z) :
  0 < f -> 0 < c -> Z.quot (f - c) 2 < Z.quot (f + c) 2.
Proof.
  intros Hf Hc. destruct (Z.le_gt_cases c f) as [Hle|Hgt].
  - destruct (centered_interval f c ltac:(lia)) as (_ & H & _). lia.
  - assert (H1 : Z.quot (f - c) 2 <= 0).
    { replace (f - c) with (- (c - f)) by lia.
      rewrite Z.quot_opp_l by lia.
      pose proof (Z.quot_pos (c - f) 2 ltac:(lia) ltac:(lia)). lia. }
    assert (H2 : 0 < Z.quot (f + c) 2).
    { rewrite Z.quot_div_nonneg by lia. apply Z.div_str_pos. lia. }
    lia.
Qed.

Lemma cropped_has_extent (im : image) (x0 y0 x1 y1 : Z) :
  x0 < x1 -> y0 < y1 -> has_extent (Cropped im (x0, y0, x1, y1)).
Proof.
  intros Hx Hy. unfold has_extent. cbn [Image.size fst snd]. lia.
Qed.

Lemma apply_images (u : TransformUnit) (ims : list image) (st : np_random_state) :
  ims <> [] -> Forall has_extent ims -> runs_on_images u ->
  exists ims' s',
    apply u (clip_of ims) [] st = (Ok (ClipOnly (clip_of ims')), s')
    /\ length ims' = length ims
    /\ Forall has_extent ims'.
Proof.
  intros Hims Hext Hu. destruct u as [r|c|rc|cc|f|r]; cbn [apply runs_on_images] in *.
  - destruct Hu as [Hsw Hsh].
    eexists. eexists. rewrite (ResizeClip_images r ims Hims Hsw Hsh).
    split; [reflexivity|]. split; [apply length_map|].
    apply Forall_map, Forall_forall. intros im _.
    unfold has_extent. rewrite (resized_size im _ _ Hsw Hsh). split; assumption.
  - destruct Hu as [Hwx Hwy].
    eexists. eexists.
    rewrite (CropClip_images c ims Hims ltac:(lia) ltac:(lia)).
    split; [reflexivity|]. split; [apply length_map|].
    apply Forall_map, Forall_forall. intros im _.
    apply cropped_has_extent; assumption.
  - contradiction.
  - destruct Hu as [Hcw Hch].
    unfold CenterCropClip.__call__, bind_M, lift.
    rewrite (format_clip_images ims Hims).
    destruct ims as [|im rest] eqn:E; [contradiction|]. rewrite <- E in *.
    assert (E0 : getitem (clip_items (clip_of ims)) 0 = Ok (PILImage im))
      by (rewrite E; reflexivity).
    assert (Him : has_extent im).
    { rewrite Forall_forall in Hext. apply Hext. rewrite E. left. reflexivity. }
    destruct Him as [HW HH].
    rewrite E0. cbn [bind as_image]. rewrite calculate_center_value.
    cbn [CenterCropClip.crop_transform CropClip._update_bbox].
    pose proof (centered_window_positive _ _ HW Hcw) as Hx.
    pose proof (centered_window_positive _ _ HH Hch) as Hy.
    match goal with
    | |- context [CropClip.__call__ ?w _ _] =>
        rewrite (CropClip_images w ims Hims ltac:(cbn; lia) ltac:(cbn; lia))
    end.
    eexists. eexists. split; [reflexivity|]. split; [apply length_map|].
    apply Forall_map, Forall_forall. intros i _.
    apply cropped_has_extent; assumption.
  - unfold RandomFlipClip.__call__, bind_M at 1, lift at 1.
    rewrite (format_clip_images ims Hims).
    unfold bind_M at 1.
    destruct (RandomFlipClip._random_flip f st) as [[flip|e] st'] eqn:E.
    + destruct flip.
      * destruct (flip_data_images f ims Hu) as (method & Hflip).
        unfold bind_M, lift. rewrite Hflip. cbn.
        eexists. eexists. split; [reflexivity|]. split; [apply length_map|].
        apply Forall_map. revert Hext. apply Forall_impl. intros i Hi. exact Hi.
      * unfold bind_M, lift. cbn.
        exists ims. eexists. split; [reflexivity|]. split; [reflexivity|exact Hext].
    + exfalso. unfold RandomFlipClip._random_flip, bind_M, np_random.random,
        bind_M, next_draw, ret_M in E.
      destruct (Qle_bool _ _) in E; discriminate.
  - unfold RandomRotateClip.__call__, bind_M at 1, np_random.choice.
    destruct (RandomRotateClip.angles r) as [|a rest] eqn:E; [contradiction|].
    unfold bind_M at 1, next_draw, ret_M at 1. unfold bind_M at 1, lift at 1.
    cbn [iterate clip_of bind].
    rewrite (map_result_images (fun im => Rotated im _)) by reflexivity.
    cbn [bbox_given]. unfold ret_M.
    eexists. eexists. split; [reflexivity|]. split; [apply length_map|].
    apply Forall_map. revert Hext. apply Forall_impl. intros i Hi. exact Hi.
Qed.

(** A sequence of units that run on images (Resize to a positive size,
    Crop and CenterCrop with a window of positive width and height,
    flips in direction 'h' or 'v', rotations with at least one angle),
    applied without boxes to a non-empty clip of images with pixels,
    returns, and returns a clip of images with pixels of the same
    length. *)
Theorem pipeline_returns_on_images
  (units : list TransformUnit) (ims : list image) (st : np_random_state) :
  ims <> [] -> Forall has_extent ims -> Forall runs_on_images units ->
  exists ims' s',
    apply_sequence units (clip_of ims) [] st = (Ok (clip_of ims', []), s')
    /\ length ims' = length ims
    /\ Forall has_extent ims'.
Proof.
  revert ims st. induction units as [|u rest IH]; intros ims st Hims Hext Hall.
  - exists ims. eexists. split; [reflexivity|]. split; [reflexivity|exact Hext].
  - inversion Hall as [|u0 rest0 Hu Hrest]; subst.
    destruct (apply_images u ims st Hims Hext Hu)
      as (ims1 & [u' st1] & Happ & Hlen1 & Hext1).
    assert (Hims1 : ims1 <> []).
    { destruct ims1; [|discriminate]. destruct ims; [contradiction|discriminate]. }
    destruct (IH ims1 st1 Hims1 Hext1 Hrest)
      as (ims2 & [rest' st2] & Hseq & Hlen2 & Hext2).
    exists ims2. eexists. cbn [apply_sequence]. rewrite Happ.
    cbn [ret_clip ret_bbox]. rewrite Hseq.
    split; [reflexivity|]. split; [congruence|exact Hext2].
Qed.

Lemma pipeline_returns_on_images_witness :
  exists ims' s',
    apply_sequence
      [Resize (ResizeClip.__init__ 32 48); RandomFlip (RandomFlipClip.__init__ "v" (1 # 3));
       CenterCrop (CenterCropClip.__init__ 16 16);
       RandomRotate (RandomRotateClip.__init__ [90])]
      (clip_of (repeat (Decoded Mode_L 64 64) 3)) [] (mk_state (fun n => N.of_nat n) 0)
    = (Ok (clip_of ims', []), s')
    /\ length ims' = 3%nat.
Proof.
  destruct (pipeline_returns_on_images
              [Resize (ResizeClip.__init__ 32 48);
               RandomFlip (RandomFlipClip.__init__ "v" (1 # 3));
               CenterCrop (CenterCropClip.__init__ 16 16);
               RandomRotate (RandomRotateClip.__init__ [90])]
              (repeat (Decoded Mode_L 64 64) 3) (mk_state (fun n => N.of_nat n) 0))
    as (ims' & s' & H & Hlen & _).
  - discriminate.
  - repeat constructor.
  - repeat constructor; cbn; discriminate.
  - exists ims', s'. split; [exact H|exact Hlen].
Defined.

(** ** The box array is never checked against the clip *)








